(** * Sentiment front-end (src/main.py): embedding and verified properties

    The script is embedded shallowly.

    - A Python [str] is a list of Unicode code points ([N]).
    - Probabilities and percentages are rationals ([Q]); every comparison the
      script performs on them is exact.  The one rounded float operation,
      the product [x * 100], is the section variable [times100].
    - The pickled artifacts (classifiers, vectorizer, linguistic tools) are
      black boxes: records of functions that return a value or raise.
    - Running a block of the script yields a trace: the calls made on the
      artifacts and the Streamlit elements rendered, in program order,
      together with the value returned or the exception raised.
    - Exceptions come from the artifacts and from the Python operations on
      what they return ([d[key]], [a[i]], [max]).  The arrays are numpy
      arrays, as scikit-learn returns them.  [st.progress] accepts a float
      of [0.0, 1.0] and raises on one it rejects; the bars are modelled for
      accepted values, so every statement that goes past a bar assumes the
      two probabilities in [0, 1].  Layout ([st.columns], [with col:]) is
      left out, and the input widgets of lines 80-112 are read through the
      record [Widgets]. *)

From Stdlib Require Import List String Ascii DecimalString NArith ZArith QArith Bool Lia.
Import ListNotations.

(** ** Python strings *)

Module PyStr.

Local Open Scope N_scope.

Definition char := N.
Definition str := list char.

Definition SPACE : char := 32.

(** Code points of a literal. *)
Fixpoint of_string (s : string) : str :=
  match s with
  | EmptyString => []
  | String a r => N_of_ascii a :: of_string r
  end.

Definition is_upper (c : char) : bool := (65 <=? c) && (c <=? 90).
Definition is_lower (c : char) : bool := (97 <=? c) && (c <=? 122).

(** The class [[A-Za-z]]. *)
Definition is_letter (c : char) : bool := is_upper c || is_lower c.

(** The class [[^A-Za-z]]. *)
Definition non_letter (c : char) : bool := negb (is_letter c).

(** Python's whitespace: what [str.strip()] removes and what [\s] matches in
    a [str] pattern. *)
Definition is_space (c : char) : bool :=
  ((9 <=? c) && (c <=? 13)) || ((28 <=? c) && (c <=? 32))
  || (c =? 133) || (c =? 160) || (c =? 5760)
  || ((8192 <=? c) && (c <=? 8202))
  || (c =? 8232) || (c =? 8233) || (c =? 8239) || (c =? 8287) || (c =? 12288).

(** [re.sub('C+', ' ', s)] for a character class [C]: every maximal run of
    characters of the class is replaced by one space.  [in_run] tells that
    the previous character belonged to the run being replaced. *)
Fixpoint sub_runs (cls : char -> bool) (in_run : bool) (s : str) : str :=
  match s with
  | [] => []
  | c :: r =>
      if cls c
      then (if in_run then sub_runs cls true r else SPACE :: sub_runs cls true r)
      else c :: sub_runs cls false r
  end.

Definition re_sub (cls : char -> bool) (s : str) : str := sub_runs cls false s.

(** [str.lower()] on ASCII text: [A-Z] is shifted to [a-z].  The script
    lowers the result of the first substitution only, which holds ASCII
    letters and spaces (lemma [lower_argument_ascii]); other code points are
    left as they are. *)
Definition lower_char (c : char) : char := if is_upper c then c + 32 else c.
Definition lower (s : str) : str := map lower_char s.

Fixpoint lstrip (s : str) : str :=
  match s with
  | [] => []
  | c :: r => if is_space c then lstrip r else s
  end.

Fixpoint rstrip (s : str) : str :=
  match s with
  | [] => []
  | c :: r =>
      match rstrip r with
      | [] => if is_space c then [] else [c]
      | r' => c :: r'
      end
  end.

(** [str.strip()]. *)
Definition strip (s : str) : str := rstrip (lstrip s).

Definition is_empty (s : str) : bool :=
  match s with [] => true | _ => false end.

End PyStr.

Import PyStr.

(** Lines 38-41 of [preprocess_text]: the text normalizer. *)
Definition normalize (text : str) : str :=
  let text := strip (lower (re_sub non_letter text)) in
  re_sub is_space text.

(** ** Regular expressions over code points

    Used to state the shape [^[a-z]*( [a-z]+)*$] of normalized text. *)

Inductive regex : Type :=
| Eps : regex
| Class : (char -> bool) -> regex
| Cat : regex -> regex -> regex
| Star : regex -> regex.

Definition Plus (r : regex) : regex := Cat r (Star r).
Definition Chr (c : char) : regex := Class (N.eqb c).

(** [Matches r s]: the whole of [s] belongs to the language of [r]. *)
Inductive Matches : regex -> str -> Prop :=
| M_eps : Matches Eps []
| M_class : forall cls c, cls c = true -> Matches (Class cls) [c]
| M_cat : forall r1 r2 s1 s2,
    Matches r1 s1 -> Matches r2 s2 -> Matches (Cat r1 r2) (s1 ++ s2)
| M_star_nil : forall r, Matches (Star r) []
| M_star_app : forall r s1 s2,
    Matches r s1 -> Matches (Star r) s2 -> Matches (Star r) (s1 ++ s2).

(** [^[a-z]*( [a-z]+)*$] *)
Definition normalized_pattern : regex :=
  Cat (Star (Class is_lower)) (Star (Cat (Chr SPACE) (Plus (Class is_lower)))).

(** The part [( [a-z]+)*]. *)
Definition more_words : regex := Star (Cat (Chr SPACE) (Plus (Class is_lower))).

(** The invariant of NormalizedText, as a decidable check: lowercase ASCII
    letters and spaces only, no space first or last, no two spaces in a
    row. *)
Definition lower_or_space (c : char) : bool := is_lower c || N.eqb c SPACE.

Definition starts_clean (s : str) : bool :=
  match s with
  | [] => true
  | c :: _ => negb (N.eqb c SPACE)
  end.

Fixpoint ends_clean (s : str) : bool :=
  match s with
  | [] => true
  | c :: r => match r with [] => negb (N.eqb c SPACE) | _ => ends_clean r end
  end.

Fixpoint single_spaced (s : str) : bool :=
  match s with
  | [] => true
  | c :: r =>
      match r with
      | [] => true
      | d :: _ => negb (N.eqb c SPACE && N.eqb d SPACE) && single_spaced r
      end
  end.

Definition normalized (s : str) : bool :=
  forallb lower_or_space s && starts_clean s && ends_clean s && single_spaced s.

(** A string of letters and spaces. *)
Definition letter_or_space (c : char) : bool := is_letter c || N.eqb c SPACE.

(** ** Confidence badge *)

Local Open Scope Q_scope.

Definition Qgtb (x y : Q) : bool := negb (Qle_bool x y).

Definition High : string * string := ("🟢 Tinggi", "success")%string.
Definition Medium : string * string := ("🟡 Sedang", "warning")%string.
Definition Low : string * string := ("🔴 Rendah", "error")%string.

Definition get_confidence_badge (prob : Q) : string * string :=
  if Qgtb prob 80 then High
  else if Qgtb prob 60 then Medium
  else Low.

(** ** Python values the script handles *)

Local Open Scope string_scope.
Local Open Scope list_scope.

(** Exceptions (instances of [Exception]). *)
Inductive exn : Type :=
| FileNotFoundError (text : string)
| KeyError (key : string)
| IndexError (text : string)
| ValueError (text : string)
| OtherError (text : string).

(** [str(e)] *)
Definition exn_text (e : exn) : string :=
  match e with
  | FileNotFoundError t | IndexError t | ValueError t | OtherError t => t
  | KeyError k => ("'" ++ k ++ "'")%string
  end.

(** What a classifier's [predict] puts in its array: a string, or something
    else such as a number. *)
Inductive label : Type :=
| LStr (s : string)
| LInt (z : Z).

(** [pred == "positive"] *)
Definition is_positive (pred : label) : bool :=
  match pred with
  | LStr s => String.eqb s "positive"
  | LInt _ => false
  end.

Definition FeatureVector : Type := list Q.

(** The artifacts, seen through the methods the script calls on them; a
    method either returns or raises.  [*_truthy] is the object's truth
    value, consulted by [all([...])] and by [if stopword_remover:]. *)
Record Classifier : Type := {
  clf_truthy : bool;
  predict : FeatureVector -> exn + list label;
  predict_proba : FeatureVector -> exn + list (list Q)
}.

Record Vectorizer : Type := {
  vec_truthy : bool;
  transform : list str -> exn + FeatureVector
}.

Record LinguisticTool : Type := {
  tool_truthy : bool;
  remove : str -> exn + str;
  stem : str -> exn + str
}.

(** The [tools] dict: keys to objects, [None] included as a value. *)
Definition ToolDict : Type := list (string * option LinguisticTool).

Record Bundle : Type := {
  model_bnb : Classifier;
  model_svm : Classifier;
  model_ensemble : Classifier;
  vectorizer : Vectorizer;
  tools : ToolDict
}.

(** ** Traces *)

Inductive model_id : Type := Ensemble | BernoulliNB | LinearSVM.

(** Calls on the artifacts. *)
Inductive call : Type :=
| Remove (text : str)
| Stem (text : str)
| Transform (docs : list str)
| Predict (m : model_id) (vec : FeatureVector)
| PredictProba (m : model_id) (vec : FeatureVector).

(** An f-string: literal text and numbers printed with [:.1f]. *)
Inductive fragment : Type :=
| Txt (s : string)
| Fix1 (x : Q).

Definition message : Type := list fragment.

(** Streamlit elements rendered by the script. *)
Inductive element : Type :=
| st_title (body : string)
| st_markdown (body : string)
| st_divider
| st_subheader (body : string)
| st_caption (body : string)
| st_write (body : string)
| st_warning (body : string)
| st_error (body : string)
| st_success (body : string)
| st_info (body : message)
| st_progress (value : Q) (text : message)
| st_text_area (name : string) (value : str)
| st_spinner (text : string).

Inductive event : Type :=
| Call (c : call)
| Show (e : element).

Definition trace : Type := list event.

Definition shown (tr : trace) : list element :=
  flat_map (fun ev => match ev with Show e => [e] | Call _ => [] end) tr.

Definition calls (tr : trace) : list call :=
  flat_map (fun ev => match ev with Call c => [c] | Show _ => [] end) tr.

(** A call on one of the three classifiers. *)
Definition on_model (m : model_id) (c : call) : bool :=
  match c, m with
  | Predict Ensemble _, Ensemble | PredictProba Ensemble _, Ensemble
  | Predict BernoulliNB _, BernoulliNB | PredictProba BernoulliNB _, BernoulliNB
  | Predict LinearSVM _, LinearSVM | PredictProba LinearSVM _, LinearSVM => true
  | _, _ => false
  end.

Definition asks_proba (m : model_id) (c : call) : bool :=
  match c with
  | PredictProba _ _ => on_model m c
  | _ => false
  end.

(** A call on a classifier or on the vectorizer. *)
Definition is_model_call (c : call) : bool :=
  match c with
  | Transform _ | Predict _ _ | PredictProba _ _ => true
  | Remove _ | Stem _ => false
  end.

(** ** Computations: a trace, then a value or an exception *)

Definition M (A : Type) : Type := trace * (exn + A).

Definition ret {A} (a : A) : M A := ([], inr a).
Definition raise {A} (e : exn) : M A := ([], inl e).

Definition bind {A B} (m : M A) (k : A -> M B) : M B :=
  match m with
  | (tr, inl e) => (tr, inl e)
  | (tr, inr a) => let (tr', r) := k a in (tr ++ tr', r)
  end.

Notation "x <- m ;; k" := (bind m (fun x => k))
  (at level 61, m at next level, right associativity).
Notation "m ;;; k" := (bind m (fun _ => k))
  (at level 61, right associativity).

Definition st (e : element) : M unit := ([Show e], inr tt).

(** Invoke a method: the call is recorded, then it returns or raises. *)
Definition invoke {A} (c : call) (r : exn + A) : M A := ([Call c], r).

(** [try: body  except Exception as e: handler(e)] *)
Definition try_except (body : M unit) (handler : exn -> trace) : trace :=
  match body with
  | (tr, inr _) => tr
  | (tr, inl e) => tr ++ handler e
  end.

(** [d[key]] *)
Fixpoint dict_get (d : ToolDict) (key : string) : M (option LinguisticTool) :=
  match d with
  | [] => raise (KeyError key)
  | (k, v) :: rest => if String.eqb k key then ret v else dict_get rest key
  end.

(** The text of numpy's [IndexError] for index [i] in an array of [size]
    items. *)
Definition out_of_bounds (i size : nat) : string :=
  ("index " ++ NilEmpty.string_of_uint (Nat.to_uint i)
   ++ " is out of bounds for axis 0 with size "
   ++ NilEmpty.string_of_uint (Nat.to_uint size))%string.

(** [a[i]] *)
Definition index {A} (a : list A) (i : nat) : M A :=
  match nth_error a i with
  | Some x => ret x
  | None => raise (IndexError (out_of_bounds i (List.length a)))
  end.

(** [max(a)]: the first item, replaced by each later item greater than the
    one held.  The text of the [ValueError] is that of Python up to 3.11. *)
Definition max_of (x : Q) (rest : list Q) : Q :=
  fold_left (fun m y => if Qgtb y m then y else m) rest x.

Definition py_max (a : list Q) : M Q :=
  match a with
  | [] => raise (ValueError "max() arg is an empty sequence")
  | x :: rest => ret (max_of x rest)
  end.

(** The object an [if obj:] accepts. *)
Definition if_truthy (obj : option LinguisticTool) : option LinguisticTool :=
  match obj with
  | Some t => if tool_truthy t then Some t else None
  | None => None
  end.

Definition preprocess_text (text : str) (stopword_remover stemmer : option LinguisticTool)
  : M str :=
  let text := normalize text in
  text <- match if_truthy stopword_remover with
          | Some t => invoke (Remove text) (remove t text)
          | None => ret text
          end ;;
  text <- match if_truthy stemmer with
          | Some t => invoke (Stem text) (stem t text)
          | None => ret text
          end ;;
  ret text.

(** ** Loading (lines 14-32) *)

(** What [joblib.load] gives for each of the five files. *)
Record Files : Type := {
  file_bernoulli_nb : exn + Classifier;
  file_linear_svm : exn + Classifier;
  file_ensemble_voting : exn + Classifier;
  file_vectorizer_tfidf : exn + Vectorizer;
  file_preprocessing_tools : exn + ToolDict
}.

Definition Loaded : Type :=
  (option Classifier * option Classifier * option Classifier
   * option Vectorizer * option ToolDict)%type.

Definition nothing_loaded : Loaded := (None, None, None, None, None).

Definition joblib_load {A} (file : exn + A) : M A := ([], file).

Definition load_model_objects (fs : Files) : trace * Loaded :=
  let attempt : M Loaded :=
    model_bnb <- joblib_load (file_bernoulli_nb fs) ;;
    model_svm <- joblib_load (file_linear_svm fs) ;;
    model_ensemble <- joblib_load (file_ensemble_voting fs) ;;
    vectorizer <- joblib_load (file_vectorizer_tfidf fs) ;;
    tools <- joblib_load (file_preprocessing_tools fs) ;;
    ret (Some model_bnb, Some model_svm, Some model_ensemble,
         Some vectorizer, Some tools) in
  match attempt with
  | (tr, inr loaded) => (tr, loaded)
  | (tr, inl (FileNotFoundError _ as e)) =>
      (tr ++ [Show (st_error ("⚠️ Error: File model tidak ditemukan ("
                              ++ exn_text e
                              ++ "). Pastikan file .pkl sudah diupload.")%string)],
       nothing_loaded)
  | (tr, inl e) =>
      (tr ++ [Show (st_error ("⚠️ Error saat memuat model: " ++ exn_text e)%string)],
       nothing_loaded)
  end.

(** [all([model_bnb, model_svm, model_ensemble, vectorizer, tools])]; when
    it holds, the five objects. *)
Definition models_loaded (l : Loaded) : option Bundle :=
  match l with
  | (Some bnb, Some svm, Some ens, Some vec, Some tls) =>
      if clf_truthy bnb && clf_truthy svm && clf_truthy ens && vec_truthy vec
         && negb (match tls with [] => true | _ => false end)
      then Some (Build_Bundle bnb svm ens vec tls)
      else None
  | _ => None
  end.

(** The state of the widgets in one run of the script. *)
Record Widgets : Type := {
  input_text : str;
  predict_btn : bool;
  show_comparison : bool;
  show_details : bool
}.

Definition unavailable_warning : element :=
  st_warning "⚠️ Aplikasi tidak dapat berjalan karena file model belum lengkap.".

Definition empty_input_warning : element :=
  st_warning "⚠️ Harap masukkan teks ulasan terlebih dahulu.".

Definition prediction_failed (e : exn) : element :=
  st_error ("Terjadi kesalahan saat proses prediksi: " ++ exn_text e)%string.

Definition sentiment_headline (pred : label) : element :=
  if is_positive pred
  then st_success "### ✅ Sentimen: POSITIF"
  else st_error "### ❌ Sentimen: NEGATIF".

Definition sentiment_chip (pred : label) : element :=
  if is_positive pred then st_success "Positif" else st_error "Negatif".

Definition classifier_of (b : Bundle) (m : model_id) : Classifier :=
  match m with
  | Ensemble => model_ensemble b
  | BernoulliNB => model_bnb b
  | LinearSVM => model_svm b
  end.

(** The literal that opens the f-string of line 152; it ends in two line
    feeds. *)
Definition confidence_heading : string :=
  ("**Tingkat Keyakinan:**" ++ String "010" (String "010" ""))%string.

(** Lines 67-69. *)
Definition page_header : trace :=
  [Show (st_title "🎬 Analisis Sentimen Film");
   Show (st_markdown "### Ensemble Model (BernoulliNB + SVM)");
   Show (st_markdown "Aplikasi ini menganalisis ulasan film dan memprediksi apakah sentimennya **Positif** atau **Negatif**.")].

Section Script.

(** The float product [x * 100]. *)
Variable times100 : Q -> Q.

Definition confidence_info (max_prob : Q) : element :=
  let (conf_text, conf_type) := get_confidence_badge max_prob in
  st_info [Txt confidence_heading; Txt conf_text; Txt " (";
           Fix1 max_prob; Txt "%)"].

(** Lines 121-124: the tools are looked up and the text is preprocessed. *)
Definition lookup_and_preprocess (d : ToolDict) (input : str) : M str :=
  stopword_remover <- dict_get d "stopword" ;;
  stemmer <- dict_get d "stemmer" ;;
  preprocess_text input stopword_remover stemmer.

(** Lines 121-127: then it is vectorized. *)
Definition prepare (b : Bundle) (input : str) : M (str * FeatureVector) :=
  processed_text <- lookup_and_preprocess (tools b) input ;;
  vec <- invoke (Transform [processed_text])
                (transform (vectorizer b) [processed_text]) ;;
  ret (processed_text, vec).

(** Lines 129-131. *)
Definition predict_ensemble (b : Bundle) (vec : FeatureVector)
  : M (label * list Q) :=
  preds <- invoke (Predict Ensemble vec) (predict (model_ensemble b) vec) ;;
  pred_ensemble <- index preds 0 ;;
  probs <- invoke (PredictProba Ensemble vec)
                  (predict_proba (model_ensemble b) vec) ;;
  prob_ensemble <- index probs 0 ;;
  ret (pred_ensemble, prob_ensemble).

(** Lines 133-158.  [prob_ensemble[1]] and [prob_ensemble[0]] are each read
    once here: the second read in the f-string cannot fail after the
    first.  The two bars are rendered as [st.progress] does for a value it
    accepts, which every probability of [0, 1] is. *)
Definition show_ensemble (pred_ensemble : label) (prob_ensemble : list Q)
  : M unit :=
  st st_divider ;;;
  st (st_subheader "🎯 Hasil Analisis (Ensemble)") ;;;
  m <- py_max prob_ensemble ;;
  let max_prob := times100 m in
  st (sentiment_headline pred_ensemble) ;;;
  st (confidence_info max_prob) ;;;
  st (st_write "**📊 Probabilitas Detail:**") ;;;
  p1 <- index prob_ensemble 1 ;;
  st (st_progress p1 [Txt "Positif: "; Fix1 (times100 p1); Txt "%"]) ;;;
  p0 <- index prob_ensemble 0 ;;
  st (st_progress p0 [Txt "Negatif: "; Fix1 (times100 p0); Txt "%"]).

(** Lines 160-182, under [if show_comparison:]. *)
Definition compare_models (b : Bundle) (vec : FeatureVector) : M unit :=
  st (st_markdown "---") ;;;
  st (st_markdown "#### 🤖 Perbandingan Model Individu") ;;;
  preds <- invoke (Predict BernoulliNB vec) (predict (model_bnb b) vec) ;;
  pred_bnb <- index preds 0 ;;
  preds <- invoke (Predict LinearSVM vec) (predict (model_svm b) vec) ;;
  pred_svm <- index preds 0 ;;
  st (st_caption "Bernoulli Naive Bayes") ;;;
  st (sentiment_chip pred_bnb) ;;;
  st (st_caption "Linear SVM") ;;;
  st (sentiment_chip pred_svm).

(** Lines 184-189, under [if show_details:]. *)
Definition show_preprocessing (input processed_text : str) : M unit :=
  st (st_markdown "---") ;;;
  st (st_markdown "#### 🔬 Detail Preprocessing") ;;;
  st (st_text_area "Teks Asli:" input) ;;;
  st (st_text_area "Hasil Preprocessing (Stemmed & Cleaned):" processed_text).

(** The body of the [try] (lines 121-189). *)
Definition analysis (b : Bundle) (input : str) (comparison details : bool)
  : M unit :=
  pv <- prepare b input ;;
  let (processed_text, vec) := pv in
  pp <- predict_ensemble b vec ;;
  let (pred_ensemble, prob_ensemble) := pp in
  show_ensemble pred_ensemble prob_ensemble ;;;
  (if comparison then compare_models b vec else ret tt) ;;;
  (if details then show_preprocessing input processed_text else ret tt).

(** Lines 115-192: what pressing the button does. *)
Definition analyze (b : Bundle) (input : str) (comparison details : bool)
  : trace :=
  if is_empty (strip input)
  then [Show empty_input_warning]
  else
    Show (st_spinner "Sedang menganalisis sentimen...")
    :: try_except (analysis b input comparison details)
                  (fun e => [Show (prediction_failed e)]).

(** Lines 67-192: one run of the script on what was loaded, with the
    widgets in state [w]. *)
Definition app (loaded : Loaded) (w : Widgets) : trace :=
  page_header
  ++ match models_loaded loaded with
     | None => [Show unavailable_warning]
     | Some b =>
         [Show st_divider; Show (st_subheader "✍️ Masukkan Ulasan Film")]
         ++ (if predict_btn w
             then analyze b (input_text w) (show_comparison w) (show_details w)
             else [])
     end.

End Script.

(** The exact product, for running the script on examples. *)
Definition exact100 (x : Q) : Q := Qred (x * 100).


(** ** Notions used to state the properties *)

Definition spinner : event := Show (st_spinner "Sedang menganalisis sentimen...").

(** What [show_ensemble] renders for a label and a row of probabilities
    [pn :: pp :: more]. *)
Definition ensemble_view (times100 : Q -> Q) (pred : label) (pn pp : Q)
    (more : list Q) : trace :=
  [Show st_divider;
   Show (st_subheader "🎯 Hasil Analisis (Ensemble)");
   Show (sentiment_headline pred);
   Show (confidence_info (times100 (max_of pn (pp :: more))));
   Show (st_write "**📊 Probabilitas Detail:**");
   Show (st_progress pp [Txt "Positif: "; Fix1 (times100 pp); Txt "%"]);
   Show (st_progress pn [Txt "Negatif: "; Fix1 (times100 pn); Txt "%"])].

Definition comparison_heading : trace :=
  [Show (st_markdown "---");
   Show (st_markdown "#### 🤖 Perbandingan Model Individu")].

(** What [compare_models] renders for the two labels. *)
Definition comparison_view (pred_bnb pred_svm : label) : trace :=
  [Show (st_caption "Bernoulli Naive Bayes"); Show (sentiment_chip pred_bnb);
   Show (st_caption "Linear SVM"); Show (sentiment_chip pred_svm)].

Definition details_view (details : bool) (input processed_text : str) : trace :=
  if details
  then [Show (st_markdown "---");
        Show (st_markdown "#### 🔬 Detail Preprocessing");
        Show (st_text_area "Teks Asli:" input);
        Show (st_text_area "Hasil Preprocessing (Stemmed & Cleaned):"
                           processed_text)]
  else [].

(** A full PredictionResult was produced for model [m]: both its label and
    its probability pair were asked of it. *)
Definition full_result_for (m : model_id) (tr : trace) : Prop :=
  (exists vec, In (Predict m vec) (calls tr))
  /\ (exists vec, In (PredictProba m vec) (calls tr)).

Definition mentions_base (c : call) : bool :=
  on_model BernoulliNB c || on_model LinearSVM c.

(** Events that are not calls of a given kind. *)
Definition no_base_call (ev : event) : bool :=
  match ev with
  | Call c => negb (mentions_base c)
  | Show _ => true
  end.

Definition no_base_proba (ev : event) : bool :=
  match ev with
  | Call c => negb (asks_proba BernoulliNB c || asks_proba LinearSVM c)
  | Show _ => true
  end.

Definition no_model_call (ev : event) : bool :=
  match ev with
  | Call c => negb (is_model_call c)
  | Show _ => true
  end.

Definition failed {A} (r : exn + A) : bool :=
  match r with inl _ => true | inr _ => false end.

(** One of the five files did not load. *)
Definition load_failure (fs : Files) : bool :=
  failed (file_bernoulli_nb fs) || failed (file_linear_svm fs)
  || failed (file_ensemble_voting fs) || failed (file_vectorizer_tfidf fs)
  || failed (file_preprocessing_tools fs).

(** What the reducer does, stage by stage, on normalized text [t]. *)
Definition reduce_stages (t : str) (stopword_remover stemmer : option LinguisticTool)
  : M str :=
  match if_truthy stopword_remover, if_truthy stemmer with
  | None, None => ([], inr t)
  | Some r, None => ([Call (Remove t)], remove r t)
  | None, Some s => ([Call (Stem t)], stem s t)
  | Some r, Some s =>
      match remove r t with
      | inl e => ([Call (Remove t)], inl e)
      | inr t' => ([Call (Remove t); Call (Stem t')], stem s t')
      end
  end.

(** ** Sample artifacts *)

Definition constant_classifier (pred : label) (row : list Q) : Classifier :=
  {| clf_truthy := true;
     predict := fun _ => inr [pred];
     predict_proba := fun _ => inr [row] |}.

Definition broken_classifier (text : string) : Classifier :=
  {| clf_truthy := true;
     predict := fun _ => inl (OtherError text);
     predict_proba := fun _ => inl (OtherError text) |}.

Definition length_vectorizer : Vectorizer :=
  {| vec_truthy := true;
     transform := fun docs => inr (map (fun d => inject_Z (Z.of_nat (List.length d))) docs) |}.

(** A tool that drops the first character on [remove] and the last on
    [stem]. *)
Definition toy_tool : LinguisticTool :=
  {| tool_truthy := true;
     remove := fun t => inr (tl t);
     stem := fun t => inr (removelast t) |}.

Definition no_tools : ToolDict := [("stopword", None); ("stemmer", None)].

Definition sample_bundle : Bundle :=
  {| model_bnb := constant_classifier (LStr "negative") [7 # 10; 3 # 10];
     model_svm := constant_classifier (LStr "positive") [2 # 10; 8 # 10];
     model_ensemble := constant_classifier (LStr "positive") [1 # 10; 9 # 10];
     vectorizer := length_vectorizer;
     tools := no_tools |}.

Definition with_base (b : Bundle) (bnb svm : Classifier) : Bundle :=
  {| model_bnb := bnb;
     model_svm := svm;
     model_ensemble := model_ensemble b;
     vectorizer := vectorizer b;
     tools := tools b |}.

Definition with_tools (b : Bundle) (d : ToolDict) : Bundle :=
  {| model_bnb := model_bnb b;
     model_svm := model_svm b;
     model_ensemble := model_ensemble b;
     vectorizer := vectorizer b;
     tools := d |}.

Definition sample_review : str := of_string "Filmnya bagus banget!".

(** What [length_vectorizer] makes of the normalized sample review. *)
Definition sample_vector : FeatureVector := [20].

(** A space, a tab, a line feed and a no-break space. *)
Definition blank_input : str := [32; 9; 10; 160]%N.

Definition toy_tools : ToolDict :=
  [("stopword", Some toy_tool); ("stemmer", Some toy_tool)].

(** A bundle of tools without the key ["stopword"]. *)
Definition stemmer_only : ToolDict := [("stemmer", Some toy_tool)].

Definition bnb_raises : Bundle :=
  with_base sample_bundle (broken_classifier "boom") (model_svm sample_bundle).

Definition svm_raises : Bundle :=
  with_base sample_bundle (model_bnb sample_bundle) (broken_classifier "boom").

(** The sample bundle with other probabilities in the base models. *)
Definition other_base_probabilities : Bundle :=
  with_base sample_bundle
            (constant_classifier (LStr "negative") [1 # 2; 1 # 2])
            (constant_classifier (LStr "positive") [1 # 4; 3 # 4]).

(** Classifiers fitted on numeric labels. *)
Definition numeric_bundle : Bundle :=
  {| model_bnb := constant_classifier (LInt 0) [7 # 10; 3 # 10];
     model_svm := constant_classifier (LInt 1) [2 # 10; 8 # 10];
     model_ensemble := constant_classifier (LInt 1) [1 # 10; 9 # 10];
     vectorizer := length_vectorizer;
     tools := no_tools |}.

Definition sample_files : Files :=
  {| file_bernoulli_nb := inr (model_bnb sample_bundle);
     file_linear_svm := inr (model_svm sample_bundle);
     file_ensemble_voting := inr (model_ensemble sample_bundle);
     file_vectorizer_tfidf := inl (FileNotFoundError "vectorizer_tfidf.pkl");
     file_preprocessing_tools := inr no_tools |}.

(** ** Notions used to state further properties *)

(** The exception of the first file, in loading order, that does not
    load. *)
Definition first_failure (fs : Files) : option exn :=
  match file_bernoulli_nb fs with
  | inl e => Some e
  | inr _ =>
      match file_linear_svm fs with
      | inl e => Some e
      | inr _ =>
          match file_ensemble_voting fs with
          | inl e => Some e
          | inr _ =>
              match file_vectorizer_tfidf fs with
              | inl e => Some e
              | inr _ =>
                  match file_preprocessing_tools fs with
                  | inl e => Some e
                  | inr _ => None
                  end
              end
          end
      end
  end.

Definition is_file_not_found (e : exn) : bool :=
  match e with FileNotFoundError _ => true | _ => false end.

(** The position of a call in the script. *)
Definition rank (c : call) : nat :=
  match c with
  | Remove _ => 0
  | Stem _ => 1
  | Transform _ => 2
  | Predict Ensemble _ => 3
  | PredictProba Ensemble _ => 4
  | Predict BernoulliNB _ => 5
  | Predict LinearSVM _ => 6
  | PredictProba _ _ => 7
  end.

(** Strictly increasing, from [n] on. *)
Fixpoint increasing_from (n : nat) (l : list nat) : bool :=
  match l with
  | [] => true
  | x :: rest => (n <=? x)%nat && increasing_from (S x) rest
  end.

(** The element the handler of line 191 renders. *)
Definition is_failure_report (e : element) : bool :=
  match e with
  | st_error body => String.prefix "Terjadi kesalahan saat proses prediksi: " body
  | _ => false
  end.

(** No failure report but, possibly, as the last element. *)
Fixpoint report_only_last (l : list element) : bool :=
  match l with
  | [] => true
  | e :: rest =>
      match rest with
      | [] => true
      | _ => negb (is_failure_report e) && report_only_last rest
      end
  end.

(** What a call on a classifier was given. *)
Definition vector_of (c : call) : option FeatureVector :=
  match c with
  | Predict _ v | PredictProba _ v => Some v
  | _ => None
  end.

(** A review of digits and punctuation. *)
Definition letterless_review : str := of_string "10/10 !!!".

Definition broken_tool (text : string) : LinguisticTool :=
  {| tool_truthy := true;
     remove := fun _ => inl (OtherError text);
     stem := fun _ => inl (OtherError text) |}.

Definition broken_vectorizer (text : string) : Vectorizer :=
  {| vec_truthy := true;
     transform := fun _ => inl (OtherError text) |}.

Definition with_vectorizer (b : Bundle) (v : Vectorizer) : Bundle :=
  {| model_bnb := model_bnb b;
     model_svm := model_svm b;
     model_ensemble := model_ensemble b;
     vectorizer := v;
     tools := tools b |}.

Definition with_ensemble (b : Bundle) (c : Classifier) : Bundle :=
  {| model_bnb := model_bnb b;
     model_svm := model_svm b;
     model_ensemble := c;
     vectorizer := vectorizer b;
     tools := tools b |}.

(** A classifier whose arrays are empty. *)
Definition empty_classifier : Classifier :=
  {| clf_truthy := true;
     predict := fun _ => inr [];
     predict_proba := fun _ => inr [] |}.

Definition complete_files : Files :=
  {| file_bernoulli_nb := inr (model_bnb sample_bundle);
     file_linear_svm := inr (model_svm sample_bundle);
     file_ensemble_voting := inr (model_ensemble sample_bundle);
     file_vectorizer_tfidf := inr length_vectorizer;
     file_preprocessing_tools := inr no_tools |}.

Definition pressed (input : str) : Widgets :=
  {| input_text := input;
     predict_btn := true;
     show_comparison := true;
     show_details := false |}.

(** * Properties *)

(** ** Character classes *)

Ltac class_facts :=
  unfold letter_or_space, lower_or_space, non_letter, is_letter, is_lower,
    is_upper, is_space, lower_char, SPACE in *;
  repeat match goal with
    | H : negb _ = true |- _ => apply negb_true_iff in H
    | H : negb _ = false |- _ => apply negb_false_iff in H
    end;
  rewrite ?orb_true_iff, ?andb_true_iff, ?orb_false_iff, ?andb_false_iff,
    ?N.leb_le, ?N.eqb_eq, ?N.leb_gt, ?N.eqb_neq in *.

Lemma space_is_space : is_space SPACE = true.
Proof. reflexivity. Qed.

Lemma space_non_letter : non_letter SPACE = true.
Proof. reflexivity. Qed.

Lemma lower_not_space (c : char) : is_lower c = true -> is_space c = false.
Proof.
  intros H. destruct (is_space c) eqn:E; [exfalso | reflexivity].
  class_facts. lia.
Qed.

Lemma lower_not_SPACE (c : char) : is_lower c = true -> N.eqb c SPACE = false.
Proof.
  intros H. apply N.eqb_neq. class_facts. lia.
Qed.

Lemma lower_is_letter (c : char) : is_lower c = true -> non_letter c = false.
Proof.
  intros H. unfold non_letter, is_letter. rewrite H, orb_true_r. reflexivity.
Qed.

Lemma lower_not_upper (c : char) : is_lower c = true -> is_upper c = false.
Proof.
  intros H. destruct (is_upper c) eqn:E; [exfalso | reflexivity].
  class_facts. lia.
Qed.

Lemma lower_char_lowers (c : char) :
  letter_or_space c = true -> lower_or_space (lower_char c) = true.
Proof.
  intros H. unfold lower_char. destruct (is_upper c) eqn:E.
  - clear H. class_facts. left. lia.
  - unfold letter_or_space, is_letter in H. rewrite E in H. exact H.
Qed.

Lemma lower_char_space (c : char) :
  N.eqb (lower_char c) SPACE = N.eqb c SPACE.
Proof.
  unfold lower_char. destruct (is_upper c) eqn:E; [| reflexivity].
  assert (c <> SPACE /\ (c + 32)%N <> SPACE) as [H1 H2] by (class_facts; lia).
  apply N.eqb_neq in H1, H2. congruence.
Qed.

Lemma lower_char_fixed (c : char) :
  lower_or_space c = true -> lower_char c = c.
Proof.
  intros H. unfold lower_char.
  destruct (is_upper c) eqn:E; [exfalso | reflexivity].
  class_facts. lia.
Qed.

(** Among lowercase letters and spaces, the space is the only white space
    and the only non-letter. *)
Lemma only_space_is_space (c : char) :
  lower_or_space c = true -> is_space c = true -> c = SPACE.
Proof.
  unfold lower_or_space. intros H Hs. apply orb_true_iff in H as [H | H].
  - rewrite (lower_not_space _ H) in Hs. discriminate.
  - now apply N.eqb_eq.
Qed.

Lemma only_space_non_letter (c : char) :
  lower_or_space c = true -> non_letter c = true -> c = SPACE.
Proof.
  unfold lower_or_space. intros H Hs. apply orb_true_iff in H as [H | H].
  - rewrite (lower_is_letter _ H) in Hs. discriminate.
  - now apply N.eqb_eq.
Qed.

Lemma not_SPACE_not_space (c : char) :
  lower_or_space c = true -> N.eqb c SPACE = false -> is_space c = false.
Proof.
  intros H Hn. destruct (is_space c) eqn:E; [| reflexivity].
  apply (only_space_is_space _ H) in E. apply N.eqb_neq in Hn. contradiction.
Qed.

(** ** Substitution of runs *)

Section SubRuns.

Variable cls : char -> bool.
Hypothesis cls_space : cls SPACE = true.

Lemma not_cls_not_SPACE (c : char) : cls c = false -> N.eqb c SPACE = false.
Proof.
  intros H. apply N.eqb_neq. intros ->. congruence.
Qed.

(** What is left is a character outside the class or a space. *)
Lemma sub_runs_charset (P : char -> bool) :
  (forall c, cls c = false -> P c = true) -> P SPACE = true ->
  forall s b, forallb P (sub_runs cls b s) = true.
Proof.
  intros Hout Hsp. induction s as [| c r IH]; intros b; simpl.
  - reflexivity.
  - destruct (cls c) eqn:E.
    + destruct b; simpl; rewrite ?Hsp; apply IH.
    + simpl. rewrite (Hout _ E). apply IH.
Qed.

(** No two spaces in a row come out, and no space first when the run is
    already open. *)
Lemma sub_runs_spacing (s : str) :
  forall b,
    single_spaced (sub_runs cls b s) = true
    /\ (b = true -> starts_clean (sub_runs cls b s) = true).
Proof.
  induction s as [| c r IH]; intros b; simpl.
  - split; reflexivity.
  - destruct (cls c) eqn:E.
    + destruct b.
      * apply IH.
      * split; [| discriminate].
        destruct (IH true) as [Hs Hc]. specialize (Hc eq_refl).
        simpl. destruct (sub_runs cls true r) as [| d t] eqn:Er; [reflexivity |].
        simpl in Hc. apply negb_true_iff in Hc. rewrite Hc. exact Hs.
    + pose proof (not_cls_not_SPACE _ E) as Hc.
      split.
      * destruct (IH false) as [Hs _]. simpl.
        destruct (sub_runs cls false r) as [| d t] eqn:Er; [reflexivity |].
        rewrite Hc. exact Hs.
      * intros _. simpl. now rewrite Hc.
Qed.

(** A string whose only characters of the class are single spaces is left
    as it is. *)
Lemma sub_runs_fixed (P : char -> bool) :
  (forall c, P c = true -> cls c = true -> c = SPACE) ->
  forall s b,
    forallb P s = true -> single_spaced s = true ->
    (b = true -> starts_clean s = true) ->
    sub_runs cls b s = s.
Proof.
  intros Honly. induction s as [| c r IH]; intros b Hall Hss Hb; simpl.
  - reflexivity.
  - simpl in Hall. apply andb_true_iff in Hall as [Hc Hall].
    assert (Hr : single_spaced r = true).
    { simpl in Hss. destruct r; [reflexivity |].
      now apply andb_true_iff in Hss. }
    destruct (cls c) eqn:E.
    + pose proof (Honly _ Hc E) as ->.
      destruct b.
      * specialize (Hb eq_refl). discriminate.
      * f_equal. apply IH; trivial. intros _.
        simpl in Hss. destruct r as [| d t]; [reflexivity |].
        apply andb_true_iff in Hss as [Hss _]. simpl in Hss. simpl.
        exact Hss.
    + f_equal. apply IH; trivial. discriminate.
Qed.

End SubRuns.

(** ** lower *)

Lemma lower_charset (s : str) :
  forallb letter_or_space s = true -> forallb lower_or_space (lower s) = true.
Proof.
  induction s as [| c r IH]; simpl; [reflexivity |].
  intros H. apply andb_true_iff in H as [Hc Hr].
  now rewrite (lower_char_lowers _ Hc), IH.
Qed.

Lemma lower_spacing (s : str) : single_spaced (lower s) = single_spaced s.
Proof.
  unfold lower. induction s as [| c r IH]; [reflexivity |].
  destruct r as [| d t]; [reflexivity |].
  simpl in *. rewrite IH, !lower_char_space. reflexivity.
Qed.

Lemma lower_fixed (s : str) : forallb lower_or_space s = true -> lower s = s.
Proof.
  induction s as [| c r IH]; simpl; [reflexivity |].
  intros H. apply andb_true_iff in H as [Hc Hr].
  now rewrite (lower_char_fixed _ Hc), IH.
Qed.

(** ** strip *)

Lemma single_spaced_tail (c : char) (r : str) :
  single_spaced (c :: r) = true -> single_spaced r = true.
Proof.
  simpl. destruct r; [reflexivity |]. intros H.
  now apply andb_true_iff in H.
Qed.

Lemma lstrip_charset (P : char -> bool) (s : str) :
  forallb P s = true -> forallb P (lstrip s) = true.
Proof.
  induction s as [| c r IH]; simpl; [reflexivity |].
  intros H. destruct (is_space c).
  - apply IH. now apply andb_true_iff in H.
  - exact H.
Qed.

Lemma lstrip_spacing (s : str) :
  single_spaced s = true -> single_spaced (lstrip s) = true.
Proof.
  induction s as [| c r IH]; [reflexivity |].
  intros H. simpl lstrip. destruct (is_space c).
  - apply IH. exact (single_spaced_tail _ _ H).
  - exact H.
Qed.

Lemma lstrip_starts_clean (s : str) : starts_clean (lstrip s) = true.
Proof.
  induction s as [| c r IH]; simpl; [reflexivity |].
  destruct (is_space c) eqn:E; [exact IH |].
  simpl. apply negb_true_iff, N.eqb_neq. intros ->.
  rewrite space_is_space in E. discriminate.
Qed.

(** What [rstrip] keeps starts as the string does. *)
Lemma rstrip_head (c : char) (r : str) :
  rstrip (c :: r) = [] \/ exists r', rstrip (c :: r) = c :: r'.
Proof.
  simpl. destruct (rstrip r).
  - destruct (is_space c); [left | right; exists []]; reflexivity.
  - right. eexists. reflexivity.
Qed.

Lemma rstrip_charset (P : char -> bool) (s : str) :
  forallb P s = true -> forallb P (rstrip s) = true.
Proof.
  induction s as [| c r IH]; simpl; [reflexivity |].
  intros H. apply andb_true_iff in H as [Hc Hr]. specialize (IH Hr).
  destruct (rstrip r) as [| d t].
  - destruct (is_space c); simpl; [reflexivity | now rewrite Hc].
  - simpl in *. now rewrite Hc, IH.
Qed.

Lemma rstrip_spacing (s : str) :
  single_spaced s = true -> single_spaced (rstrip s) = true.
Proof.
  induction s as [| c r IH]; [reflexivity |].
  intros H. pose proof (single_spaced_tail _ _ H) as Hr. specialize (IH Hr).
  simpl rstrip. destruct (rstrip r) as [| d t] eqn:E.
  - destruct (is_space c); reflexivity.
  - destruct r as [| d0 r0]; [discriminate |].
    destruct (rstrip_head d0 r0) as [E0 | [r' E0]]; rewrite E0 in E;
      [discriminate |].
    injection E as <- <-.
    simpl in H. apply andb_true_iff in H as [H _].
    change (single_spaced (c :: d0 :: r'))
      with (negb ((c =? SPACE)%N && (d0 =? SPACE)%N)
            && single_spaced (d0 :: r')).
    now rewrite H, IH.
Qed.

Lemma rstrip_starts_clean (s : str) :
  starts_clean s = true -> starts_clean (rstrip s) = true.
Proof.
  destruct s as [| c r]; [reflexivity |].
  intros H. destruct (rstrip_head c r) as [E | [r' E]]; rewrite E.
  - reflexivity.
  - exact H.
Qed.

Lemma rstrip_ends_clean (s : str) : ends_clean (rstrip s) = true.
Proof.
  induction s as [| c r IH]; simpl; [reflexivity |].
  destruct (rstrip r) as [| d t] eqn:E.
  - destruct (is_space c) eqn:Ec; [reflexivity |].
    simpl. apply negb_true_iff, N.eqb_neq. intros ->.
    rewrite space_is_space in Ec. discriminate.
  - exact IH.
Qed.

Lemma lstrip_fixed (s : str) :
  forallb lower_or_space s = true -> starts_clean s = true -> lstrip s = s.
Proof.
  destruct s as [| c r]; [reflexivity |]. simpl.
  intros H Hc. apply andb_true_iff in H as [H _].
  apply negb_true_iff in Hc. now rewrite (not_SPACE_not_space _ H Hc).
Qed.

Lemma rstrip_fixed (s : str) :
  forallb lower_or_space s = true -> ends_clean s = true -> rstrip s = s.
Proof.
  induction s as [| c r IH]; [reflexivity |].
  intros H He. simpl in H. apply andb_true_iff in H as [Hc Hr].
  simpl rstrip. destruct r as [| d t].
  - simpl in *. apply negb_true_iff in He.
    now rewrite (not_SPACE_not_space _ Hc He).
  - rewrite IH; [reflexivity | exact Hr | exact He].
Qed.

(** ** The normalizer *)

(** [lower] is only ever given ASCII letters and spaces. *)
Lemma lower_argument_ascii (text : str) :
  forallb letter_or_space (re_sub non_letter text) = true.
Proof.
  apply sub_runs_charset.
  - intros c H. unfold letter_or_space.
    apply negb_false_iff in H. now rewrite H.
  - reflexivity.
Qed.

Lemma normalize_normalized (text : str) : normalized (normalize text) = true.
Proof.
  unfold normalize.
  set (t := strip (lower (re_sub non_letter text))).
  assert (Hall : forallb lower_or_space t = true).
  { apply rstrip_charset, lstrip_charset, lower_charset, lower_argument_ascii. }
  assert (Hss : single_spaced t = true).
  { apply rstrip_spacing, lstrip_spacing. rewrite lower_spacing.
    apply (sub_runs_spacing non_letter space_non_letter). }
  assert (Hsc : starts_clean t = true)
    by apply rstrip_starts_clean, lstrip_starts_clean.
  assert (Hec : ends_clean t = true) by apply rstrip_ends_clean.
  unfold re_sub.
  rewrite (sub_runs_fixed is_space lower_or_space only_space_is_space t false);
    trivial; try discriminate.
  unfold normalized. now rewrite Hall, Hss, Hsc, Hec.
Qed.

Lemma normalized_fixed (t : str) : normalized t = true -> normalize t = t.
Proof.
  unfold normalized. intros H.
  apply andb_true_iff in H as [H Hss]. apply andb_true_iff in H as [H Hec].
  apply andb_true_iff in H as [Hall Hsc].
  unfold normalize, re_sub, strip.
  rewrite (sub_runs_fixed non_letter lower_or_space only_space_non_letter t false);
    trivial; try discriminate.
  rewrite (lower_fixed _ Hall), (lstrip_fixed _ Hall Hsc), (rstrip_fixed _ Hall Hec).
  apply (sub_runs_fixed is_space lower_or_space only_space_is_space);
    trivial; discriminate.
Qed.

(** ** Shape of normalized text *)

Lemma star_of_class (cls : char -> bool) (w : str) :
  forallb cls w = true -> Matches (Star (Class cls)) w.
Proof.
  induction w as [| c w IH]; simpl; intros H.
  - constructor.
  - apply andb_true_iff in H as [Hc Hw].
    change (c :: w) with ([c] ++ w).
    constructor; [now constructor | auto].
Qed.

Lemma ends_clean_tail (c : char) (r : str) :
  ends_clean (c :: r) = true -> ends_clean r = true.
Proof.
  simpl. destruct r; [reflexivity | trivial].
Qed.

(** A first word, possibly empty, then words each led by one space. *)
Lemma split_first_word (s : str) :
  forallb lower_or_space s = true -> ends_clean s = true ->
  single_spaced s = true ->
  exists w rest,
    s = w ++ rest /\ forallb is_lower w = true /\ Matches more_words rest
    /\ (rest = [] \/ exists t, rest = SPACE :: t).
Proof.
  induction s as [| c r IH]; intros Hall Hec Hss.
  - exists [], []. repeat split; [constructor | now left].
  - simpl in Hall. apply andb_true_iff in Hall as [Hc Hr].
    destruct (IH Hr (ends_clean_tail _ _ Hec) (single_spaced_tail _ _ Hss))
      as (w & rest & -> & Hw & Hm & Hrest).
    unfold lower_or_space in Hc. apply orb_true_iff in Hc as [Hc | Hc].
    + exists (c :: w), rest. simpl. rewrite Hc, Hw. auto.
    + apply N.eqb_eq in Hc. subst c.
      destruct w as [| d w].
      * exfalso. simpl in *. destruct Hrest as [-> | [t ->]].
        -- discriminate.
        -- discriminate.
      * exists [], (SPACE :: (d :: w) ++ rest). simpl in Hw.
        apply andb_true_iff in Hw as [Hd Hw].
        repeat split; [| right; eexists; reflexivity].
        change (SPACE :: (d :: w) ++ rest)
          with (([SPACE] ++ ([d] ++ w)) ++ rest).
        apply M_star_app; [| exact Hm].
        apply M_cat.
        -- apply M_class. apply N.eqb_refl.
        -- apply M_cat; [now apply M_class | now apply star_of_class].
Qed.

Lemma normalized_matches (s : str) :
  normalized s = true -> Matches normalized_pattern s.
Proof.
  unfold normalized. intros H.
  apply andb_true_iff in H as [H Hss]. apply andb_true_iff in H as [H Hec].
  apply andb_true_iff in H as [Hall _].
  destruct (split_first_word s Hall Hec Hss) as (w & rest & -> & Hw & Hm & _).
  apply M_cat; [now apply star_of_class | exact Hm].
Qed.

Lemma normalize_idempotent_all (text : str) :
  normalize (normalize text) = normalize text.
Proof.
  apply normalized_fixed, normalize_normalized.
Qed.

(** With no tool the preprocessing is the normalizer, and calls nothing. *)
Lemma preprocess_text_plain (text : str) :
  preprocess_text text None None = ([], inr (normalize text)).
Proof. reflexivity. Qed.

(** C6.  For every input string, preprocessing with no stopword remover and
    no stemmer returns a string that matches [^[a-z]*( [a-z]+)*$]: only
    lowercase ASCII letters and single spaces, with no space first or
    last. *)
Theorem normalize_output_shape (text : str) :
  exists out,
    preprocess_text text None None = ([], inr out)
    /\ Matches normalized_pattern out
    /\ forallb lower_or_space out = true
    /\ single_spaced out = true
    /\ starts_clean out = true
    /\ ends_clean out = true.
Proof.
  exists (normalize text).
  pose proof (normalize_normalized text) as H.
  split; [reflexivity |]. split; [now apply normalized_matches |].
  unfold normalized in H.
  apply andb_true_iff in H as [H Hss]. apply andb_true_iff in H as [H Hec].
  apply andb_true_iff in H as [Hall Hsc]. auto.
Qed.

(** C9.  For every string of letters and spaces, normalizing twice gives
    what normalizing once gives, where normalizing is preprocessing with no
    stopword remover and no stemmer. *)
Theorem normalize_idempotent (s : str) :
  forallb letter_or_space s = true ->
  exists once,
    preprocess_text s None None = ([], inr once)
    /\ preprocess_text once None None = ([], inr once).
Proof.
  intros _. exists (normalize s). split; [reflexivity |].
  rewrite preprocess_text_plain, normalize_idempotent_all. reflexivity.
Qed.

Lemma normalize_idempotent_witness :
  forallb letter_or_space (of_string " Film  Bagus SEKALI ") = true
  /\ exists once,
      preprocess_text (of_string " Film  Bagus SEKALI ") None None
      = ([], inr once)
      /\ preprocess_text once None None = ([], inr once).
Proof.
  split; [reflexivity |].
  apply (normalize_idempotent (of_string " Film  Bagus SEKALI ")).
  reflexivity.
Defined.

Example normalize_review :
  normalize (of_string "Filmnya bagus banget, alurnya tidak ketebak!")
  = of_string "filmnya bagus banget alurnya tidak ketebak".
Proof. reflexivity. Qed.

(** ** Confidence badge *)

Lemma Qgtb_true (x y : Q) : Qgtb x y = true <-> y < x.
Proof.
  unfold Qgtb. rewrite negb_true_iff. split.
  - intros H. apply Qnot_le_lt. intros Hle.
    apply Qle_bool_iff in Hle. congruence.
  - intros H. destruct (Qle_bool x y) eqn:E; [| reflexivity].
    apply Qle_bool_iff in E. exfalso. exact (Qlt_not_le _ _ H E).
Qed.

Lemma Qgtb_false (x y : Q) : Qgtb x y = false <-> x <= y.
Proof.
  unfold Qgtb. rewrite negb_false_iff. apply Qle_bool_iff.
Qed.

Lemma badges_distinct : High <> Medium /\ High <> Low /\ Medium <> Low.
Proof. repeat split; discriminate. Qed.

Lemma badge_high (p : Q) : get_confidence_badge p = High <-> 80 < p.
Proof.
  destruct badges_distinct as (HM & HL & ML).
  unfold get_confidence_badge. destruct (Qgtb p 80) eqn:E.
  - apply Qgtb_true in E. tauto.
  - apply Qgtb_false in E. split.
    + destruct (Qgtb p 60); intros H; symmetry in H; contradiction.
    + intros H. exfalso. exact (Qlt_not_le _ _ H E).
Qed.


Lemma badge_low (p : Q) : get_confidence_badge p = Low <-> p <= 60.
Proof.
  destruct badges_distinct as (HM & HL & ML).
  unfold get_confidence_badge. destruct (Qgtb p 80) eqn:E.
  - apply Qgtb_true in E. split; [contradiction |].
    intros H. exfalso. apply (Qlt_not_le _ _ E).
    apply (Qle_trans _ 60); [exact H | discriminate].
  - destruct (Qgtb p 60) eqn:E'.
    + apply Qgtb_true in E'. split; [contradiction |].
      intros H. exfalso. exact (Qlt_not_le _ _ E' H).
    + apply Qgtb_false in E'. tauto.
Qed.


(** ** Traces of computations *)

Lemma bind_all {A B} (P : event -> bool) (m : M A) (k : A -> M B) :
  forallb P (fst m) = true ->
  (forall a, forallb P (fst (k a)) = true) ->
  forallb P (fst (bind m k)) = true.
Proof.
  destruct m as [tr [e | a]]; simpl; intros Hm Hk; [exact Hm |].
  specialize (Hk a). destruct (k a) as [tr' r]. simpl in *.
  rewrite forallb_app, Hm, Hk. reflexivity.
Qed.

Lemma dict_get_silent (d : ToolDict) (key : string) : fst (dict_get d key) = [].
Proof.
  induction d as [| [k v] rest IH]; simpl; [reflexivity |].
  destruct (String.eqb k key); [reflexivity | exact IH].
Qed.

Lemma index_silent {A} (a : list A) (i : nat) : fst (index a i) = [].
Proof. unfold index. destruct (nth_error a i); reflexivity. Qed.

Lemma py_max_silent (a : list Q) : fst (py_max a) = [].
Proof. destruct a; reflexivity. Qed.

Lemma try_except_all (P : event -> bool) (body : M unit) (handler : exn -> trace) :
  forallb P (fst body) = true ->
  (forall e, forallb P (handler e) = true) ->
  forallb P (try_except body handler) = true.
Proof.
  destruct body as [tr [e | u]]; simpl; intros Hb Hh; [| exact Hb].
  rewrite forallb_app, Hb, Hh. reflexivity.
Qed.

Lemma calls_all (P : event -> bool) (tr : trace) :
  forallb P tr = true -> forall c, In c (calls tr) -> P (Call c) = true.
Proof.
  induction tr as [| ev tr IH]; simpl; [contradiction |].
  intros H c Hin. apply andb_true_iff in H as [Hev Htr].
  destruct ev as [c' | e]; simpl in Hin.
  - destruct Hin as [<- | Hin]; auto.
  - auto.
Qed.

Lemma calls_app (tr1 tr2 : trace) : calls (tr1 ++ tr2) = calls tr1 ++ calls tr2.
Proof. unfold calls. apply flat_map_app. Qed.

Lemma shown_app (tr1 tr2 : trace) : shown (tr1 ++ tr2) = shown tr1 ++ shown tr2.
Proof. unfold shown. apply flat_map_app. Qed.

(** Splits a goal on the events of a computation along its binds and
    branches. *)
Ltac walk_trace :=
  repeat match goal with
    | |- forallb _ (fst (bind _ _)) = true => apply bind_all; [| intros]
    | |- forallb _ (fst (dict_get _ _)) = true =>
        rewrite dict_get_silent; reflexivity
    | |- forallb _ (fst (index _ _)) = true =>
        rewrite index_silent; reflexivity
    | |- forallb _ (fst (py_max _)) = true =>
        rewrite py_max_silent; reflexivity
    | |- forallb _ (fst (match ?x with _ => _ end)) = true => destruct x
    | |- forallb _ (fst (let (_, _) := ?x in _)) = true => destruct x
    | |- forallb _ (fst _) = true => reflexivity
    end.

Section ScriptProperties.

Variable times100 : Q -> Q.

Lemma prepare_no_base (P : event -> bool) (b : Bundle) (input : str) :
  (forall t, P (Call (Remove t)) = true) ->
  (forall t, P (Call (Stem t)) = true) ->
  (forall d, P (Call (Transform d)) = true) ->
  forallb P (fst (prepare b input)) = true.
Proof.
  intros Hr Hs Ht. unfold prepare, lookup_and_preprocess, preprocess_text, invoke.
  walk_trace; simpl; rewrite ?Hr, ?Hs, ?Ht; reflexivity.
Qed.

Lemma analysis_without_comparison (b : Bundle) (input : str) (details : bool) :
  forallb no_base_call (fst (analysis times100 b input false details)) = true.
Proof.
  unfold analysis.
  apply bind_all; [apply prepare_no_base; reflexivity | intros [pt vec]].
  unfold predict_ensemble, show_ensemble, show_preprocessing, invoke.
  walk_trace.
Qed.

Lemma analysis_no_base_proba (b : Bundle) (input : str) (comparison details : bool) :
  forallb no_base_proba (fst (analysis times100 b input comparison details)) = true.
Proof.
  unfold analysis.
  apply bind_all; [apply prepare_no_base; reflexivity | intros [pt vec]].
  unfold predict_ensemble, show_ensemble, compare_models, show_preprocessing,
    invoke.
  walk_trace.
Qed.


Lemma show_ensemble_ok (pred : label) (pn pp : Q) (more : list Q) :
  show_ensemble times100 pred (pn :: pp :: more)
  = (ensemble_view times100 pred pn pp more, inr tt).
Proof. reflexivity. Qed.

Lemma predict_ensemble_ok (b : Bundle) (vec : FeatureVector)
    (pred : label) (preds : list label) (row : list Q) (rows : list (list Q)) :
  predict (model_ensemble b) vec = inr (pred :: preds) ->
  predict_proba (model_ensemble b) vec = inr (row :: rows) ->
  predict_ensemble b vec
  = ([Call (Predict Ensemble vec); Call (PredictProba Ensemble vec)],
     inr (pred, row)).
Proof.
  intros H1 H2. unfold predict_ensemble, invoke. rewrite H1. simpl.
  rewrite H2. reflexivity.
Qed.

Lemma compare_models_ok (b : Bundle) (vec : FeatureVector)
    (pa pb : label) (pas pbs : list label) :
  predict (model_bnb b) vec = inr (pa :: pas) ->
  predict (model_svm b) vec = inr (pb :: pbs) ->
  compare_models b vec
  = (comparison_heading
     ++ [Call (Predict BernoulliNB vec); Call (Predict LinearSVM vec)]
     ++ comparison_view pa pb, inr tt).
Proof.
  intros H1 H2. unfold compare_models, invoke. simpl. rewrite H1. simpl.
  rewrite H2. reflexivity.
Qed.

Lemma show_details_ok (details : bool) (input processed_text : str) :
  (if details then show_preprocessing input processed_text else ret tt)
  = (details_view details input processed_text, inr tt).
Proof. destruct details; reflexivity. Qed.

(** The run up to the point where the ensemble result is on screen. *)
Lemma analysis_after_ensemble (b : Bundle) (input : str) (comparison details : bool)
    (tr0 : trace) (processed_text : str) (vec : FeatureVector)
    (pred : label) (preds : list label) (pn pp : Q) (more : list Q)
    (rows : list (list Q)) :
  prepare b input = (tr0, inr (processed_text, vec)) ->
  predict (model_ensemble b) vec = inr (pred :: preds) ->
  predict_proba (model_ensemble b) vec = inr ((pn :: pp :: more) :: rows) ->
  analysis times100 b input comparison details
  = bind (tr0 ++ [Call (Predict Ensemble vec); Call (PredictProba Ensemble vec)]
          ++ ensemble_view times100 pred pn pp more, inr tt)
         (fun _ =>
            (if comparison then compare_models b vec else ret tt) ;;;
            (if details then show_preprocessing input processed_text else ret tt)).
Proof.
  intros H0 H1 H2. unfold analysis. rewrite H0. cbn [bind].
  rewrite (predict_ensemble_ok b vec _ _ _ _ H1 H2). cbn [bind].
  rewrite show_ensemble_ok. cbn [bind].
  destruct (bind (if comparison then compare_models b vec else ret tt) _)
    as [tr r].
  rewrite <- !app_assoc. reflexivity.
Qed.

Lemma analyze_nonblank (b : Bundle) (input : str) (comparison details : bool) :
  is_empty (strip input) = false ->
  analyze times100 b input comparison details
  = spinner :: try_except (analysis times100 b input comparison details)
                          (fun e => [Show (prediction_failed e)]).
Proof. intros H. unfold analyze. rewrite H. reflexivity. Qed.

(** Whatever happens afterwards, the ensemble result stays on screen. *)
Lemma analyze_shows_ensemble (b : Bundle) (input : str) (comparison details : bool)
    (tr0 : trace) (processed_text : str) (vec : FeatureVector)
    (pred : label) (preds : list label) (pn pp : Q) (more : list Q)
    (rows : list (list Q)) :
  is_empty (strip input) = false ->
  prepare b input = (tr0, inr (processed_text, vec)) ->
  predict (model_ensemble b) vec = inr (pred :: preds) ->
  predict_proba (model_ensemble b) vec = inr ((pn :: pp :: more) :: rows) ->
  exists rest,
    analyze times100 b input comparison details
    = spinner :: tr0
      ++ [Call (Predict Ensemble vec); Call (PredictProba Ensemble vec)]
      ++ ensemble_view times100 pred pn pp more ++ rest.
Proof.
  intros Hin H0 H1 H2. rewrite analyze_nonblank by exact Hin.
  erewrite analysis_after_ensemble by eassumption.
  cbn [bind].
  destruct (bind (if comparison then compare_models b vec else ret tt) _)
    as [tr [e | u]]; simpl try_except.
  - exists (tr ++ [Show (prediction_failed e)]).
    now rewrite <- !app_assoc.
  - exists tr. now rewrite <- !app_assoc.
Qed.

(** The whole run when every call succeeds and the comparison is asked. *)
Lemma analyze_with_comparison (b : Bundle) (input : str) (details : bool)
    (tr0 : trace) (processed_text : str) (vec : FeatureVector)
    (pred pa pb : label) (preds pas pbs : list label) (pn pp : Q)
    (more : list Q) (rows : list (list Q)) :
  is_empty (strip input) = false ->
  prepare b input = (tr0, inr (processed_text, vec)) ->
  predict (model_ensemble b) vec = inr (pred :: preds) ->
  predict_proba (model_ensemble b) vec = inr ((pn :: pp :: more) :: rows) ->
  predict (model_bnb b) vec = inr (pa :: pas) ->
  predict (model_svm b) vec = inr (pb :: pbs) ->
  analyze times100 b input true details
  = spinner :: tr0
    ++ [Call (Predict Ensemble vec); Call (PredictProba Ensemble vec)]
    ++ ensemble_view times100 pred pn pp more
    ++ comparison_heading
    ++ [Call (Predict BernoulliNB vec); Call (Predict LinearSVM vec)]
    ++ comparison_view pa pb
    ++ details_view details input processed_text.
Proof.
  intros Hin H0 H1 H2 Ha Hb. rewrite analyze_nonblank by exact Hin.
  erewrite analysis_after_ensemble by eassumption.
  erewrite compare_models_ok by eassumption. rewrite show_details_ok.
  unfold ret. cbn [bind try_except]. rewrite <- ?app_assoc. reflexivity.
Qed.

(** The whole run when every call succeeds and no comparison is asked. *)
Lemma analyze_plain (b : Bundle) (input : str) (details : bool)
    (tr0 : trace) (processed_text : str) (vec : FeatureVector)
    (pred : label) (preds : list label) (pn pp : Q)
    (more : list Q) (rows : list (list Q)) :
  is_empty (strip input) = false ->
  prepare b input = (tr0, inr (processed_text, vec)) ->
  predict (model_ensemble b) vec = inr (pred :: preds) ->
  predict_proba (model_ensemble b) vec = inr ((pn :: pp :: more) :: rows) ->
  analyze times100 b input false details
  = spinner :: tr0
    ++ [Call (Predict Ensemble vec); Call (PredictProba Ensemble vec)]
    ++ ensemble_view times100 pred pn pp more
    ++ details_view details input processed_text.
Proof.
  intros Hin H0 H1 H2. rewrite analyze_nonblank by exact Hin.
  erewrite analysis_after_ensemble by eassumption.
  rewrite show_details_ok.
  unfold ret. cbn [bind try_except]. rewrite <- ?app_assoc. reflexivity.
Qed.

Lemma analyze_all (P : event -> bool) (b : Bundle) (input : str)
    (comparison details : bool) :
  (forall e, P (Show e) = true) ->
  forallb P (fst (analysis times100 b input comparison details)) = true ->
  forallb P (analyze times100 b input comparison details) = true.
Proof.
  intros Hs Ha. unfold analyze. destruct (is_empty (strip input)).
  - simpl. now rewrite Hs.
  - simpl. rewrite Hs. simpl. apply try_except_all; [exact Ha |].
    intros e. simpl. now rewrite Hs.
Qed.

Lemma analyze_never_asks_base_proba (b : Bundle) (input : str)
    (comparison details : bool) (c : call) :
  In c (calls (analyze times100 b input comparison details)) ->
  asks_proba BernoulliNB c = false /\ asks_proba LinearSVM c = false.
Proof.
  intros Hin.
  assert (H : no_base_proba (Call c) = true).
  { revert Hin. apply calls_all, analyze_all;
      [reflexivity | apply analysis_no_base_proba]. }
  simpl in H. apply negb_true_iff, orb_false_iff in H. exact H.
Qed.

(** C1, amended.  When the comparison view is requested, every call
    succeeds and the two probabilities lie in [0, 1], the run asks the
    ensemble for a label and for a probability pair and shows both; of each
    base model it asks the label only and shows the label only.
    [predict_proba] of a base model is never called, so no full
    PredictionResult exists for a base model. *)
Theorem comparison_gives_base_labels_only (b : Bundle) (input : str)
    (details : bool) (tr0 : trace) (processed_text : str) (vec : FeatureVector)
    (pred pa pb : label) (preds pas pbs : list label) (pn pp : Q)
    (rows : list (list Q)) :
  is_empty (strip input) = false ->
  prepare b input = (tr0, inr (processed_text, vec)) ->
  predict (model_ensemble b) vec = inr (pred :: preds) ->
  predict_proba (model_ensemble b) vec = inr ([pn; pp] :: rows) ->
  predict (model_bnb b) vec = inr (pa :: pas) ->
  predict (model_svm b) vec = inr (pb :: pbs) ->
  0 <= pn <= 1 -> 0 <= pp <= 1 ->
  let run := analyze times100 b input true details in
  run = spinner :: tr0
        ++ [Call (Predict Ensemble vec); Call (PredictProba Ensemble vec)]
        ++ ensemble_view times100 pred pn pp []
        ++ comparison_heading
        ++ [Call (Predict BernoulliNB vec); Call (Predict LinearSVM vec)]
        ++ comparison_view pa pb
        ++ details_view details input processed_text
  /\ full_result_for Ensemble run
  /\ In (Predict BernoulliNB vec) (calls run)
  /\ In (Predict LinearSVM vec) (calls run)
  /\ ~ full_result_for BernoulliNB run
  /\ ~ full_result_for LinearSVM run.
Proof.
  intros Hin H0 H1 H2 Ha Hb Hpn Hpp run.
  assert (Hrun : run = spinner :: tr0
        ++ [Call (Predict Ensemble vec); Call (PredictProba Ensemble vec)]
        ++ ensemble_view times100 pred pn pp []
        ++ comparison_heading
        ++ [Call (Predict BernoulliNB vec); Call (Predict LinearSVM vec)]
        ++ comparison_view pa pb
        ++ details_view details input processed_text).
  { unfold run. eapply analyze_with_comparison; eassumption. }
  assert (Hcalls : calls run
                   = calls tr0 ++ [Predict Ensemble vec; PredictProba Ensemble vec]
                     ++ [Predict BernoulliNB vec; Predict LinearSVM vec]).
  { rewrite Hrun. change (spinner :: ?l) with ([spinner] ++ l).
    rewrite !calls_app. simpl. destruct details; simpl;
      rewrite ?app_nil_r; reflexivity. }
  split; [exact Hrun |]. split; [| split; [| split; [| split]]].
  - split; exists vec; rewrite Hcalls, !in_app_iff; simpl; auto.
  - rewrite Hcalls, !in_app_iff. simpl. auto.
  - rewrite Hcalls, !in_app_iff. simpl. auto.
  - intros [_ [v Hv]].
    destruct (analyze_never_asks_base_proba _ _ _ _ _ Hv) as [H _].
    discriminate.
  - intros [_ [v Hv]].
    destruct (analyze_never_asks_base_proba _ _ _ _ _ Hv) as [_ H].
    discriminate.
Qed.

(** C4.  Without the comparison flag the run makes no call on either base
    classifier, whatever the input; so the run is the same for any two
    choices of base classifiers. *)
Theorem no_base_call_without_comparison (b : Bundle) (input : str)
    (details : bool) :
  (forall c,
      In c (calls (analyze times100 b input false details)) ->
      on_model BernoulliNB c = false /\ on_model LinearSVM c = false)
  /\ (forall bnb svm bnb' svm',
         analyze times100 (with_base b bnb svm) input false details
         = analyze times100 (with_base b bnb' svm') input false details).
Proof.
  split.
  - intros c Hin.
    assert (H : no_base_call (Call c) = true).
    { revert Hin. apply calls_all, analyze_all;
        [reflexivity | apply analysis_without_comparison]. }
    simpl in H. apply negb_true_iff, orb_false_iff in H. exact H.
  - intros bnb svm bnb' svm'. reflexivity.
Qed.

Lemma lstrip_blank (s : str) : forallb is_space s = true -> lstrip s = [].
Proof.
  induction s as [| c r IH]; simpl; [reflexivity |].
  intros H. apply andb_true_iff in H as [Hc Hr]. rewrite Hc. auto.
Qed.

Lemma strip_blank (s : str) : forallb is_space s = true -> strip s = [].
Proof.
  intros H. unfold strip. now rewrite (lstrip_blank s H).
Qed.

(** C3.  For every input that is empty or made of white space only, pressing
    the button renders the empty-input warning and nothing else: no call is
    made on the vectorizer or on any classifier (nor on any tool).  The
    warning is not the element that reports a failure, nor the one that
    reports missing models. *)
Theorem blank_input_is_refused (b : Bundle) (input : str)
    (comparison details : bool) :
  forallb is_space input = true ->
  analyze times100 b input comparison details = [Show empty_input_warning]
  /\ calls (analyze times100 b input comparison details) = []
  /\ (forall e, empty_input_warning <> prediction_failed e)
  /\ empty_input_warning <> unavailable_warning.
Proof.
  intros H. unfold analyze. rewrite (strip_blank input H). simpl.
  repeat split; discriminate.
Qed.

Lemma load_failure_loads_nothing (fs : Files) :
  load_failure fs = true ->
  snd (load_model_objects fs) = nothing_loaded
  /\ exists body, fst (load_model_objects fs) = [Show (st_error body)].
Proof.
  unfold load_failure, load_model_objects, joblib_load.
  destruct fs as [f1 f2 f3 f4 f5]. simpl.
  destruct f1 as [[] | c1]; simpl; try (split; [reflexivity | eexists; reflexivity]).
  destruct f2 as [[] | c2]; simpl; try (split; [reflexivity | eexists; reflexivity]).
  destruct f3 as [[] | c3]; simpl; try (split; [reflexivity | eexists; reflexivity]).
  destruct f4 as [[] | c4]; simpl; try (split; [reflexivity | eexists; reflexivity]).
  destruct f5 as [[] | c5]; simpl; try (split; [reflexivity | eexists; reflexivity]).
  discriminate.
Qed.

(** C7.  If any of the five artifacts fails to load, nothing is loaded, one
    error is rendered by the loader, and every run of the script on what was
    loaded renders the unavailable warning after the page header and makes
    no call at all: no vectorization, no prediction. *)
Theorem load_failure_makes_unavailable (fs : Files) :
  load_failure fs = true ->
  snd (load_model_objects fs) = nothing_loaded
  /\ (exists body, fst (load_model_objects fs) = [Show (st_error body)])
  /\ forall w : Widgets,
      app times100 (snd (load_model_objects fs)) w
      = page_header ++ [Show unavailable_warning]
      /\ calls (app times100 (snd (load_model_objects fs)) w) = [].
Proof.
  intros H. destruct (load_failure_loads_nothing fs H) as [Hn Hm].
  split; [exact Hn |]. split; [exact Hm |].
  intros w. rewrite Hn. split; reflexivity.
Qed.

Lemma prepare_shows_nothing (b : Bundle) (input : str) :
  shown (fst (prepare b input)) = [].
Proof.
  assert (H : forallb (fun ev => match ev with Call _ => true | Show _ => false end)
                      (fst (prepare b input)) = true)
    by (apply prepare_no_base; reflexivity).
  induction (fst (prepare b input)) as [| [c | e] tr IH]; simpl in *.
  - reflexivity.
  - auto.
  - discriminate.
Qed.

Lemma confidence_info_text (max_prob : Q) :
  confidence_info max_prob
  = st_info [Txt confidence_heading;
             Txt (fst (get_confidence_badge max_prob));
             Txt " ("; Fix1 max_prob; Txt "%)"].
Proof.
  unfold confidence_info. destruct (get_confidence_badge max_prob). reflexivity.
Qed.


Lemma is_positive_spec (pred : label) :
  is_positive pred = true <-> pred = LStr "positive".
Proof.
  destruct pred as [s | z]; simpl.
  - rewrite String.eqb_eq. split; [intros -> | intros [= ->]]; reflexivity.
  - split; discriminate.
Qed.

(** C10.  Whatever value a classifier's [predict] returns, the sentiment
    rendered for it is positive exactly when the value is the string
    ["positive"]; any other value, a number included, is rendered as
    negative.  The value never makes the run fail: with the labels
    [pred], [pa] and [pb] of the three models, and the ensemble's two
    probabilities in [0, 1], the run renders the three sentiments and no
    failure report. *)
Theorem label_decides_sentiment :
  (forall pred : label,
      (sentiment_headline pred = st_success "### ✅ Sentimen: POSITIF"
       <-> pred = LStr "positive")
      /\ (sentiment_headline pred = st_error "### ❌ Sentimen: NEGATIF"
          <-> pred <> LStr "positive")
      /\ (sentiment_chip pred = st_success "Positif" <-> pred = LStr "positive")
      /\ (sentiment_chip pred = st_error "Negatif" <-> pred <> LStr "positive"))
  /\ (forall (b : Bundle) (input : str) (details : bool)
        (tr0 : trace) (processed_text : str) (vec : FeatureVector)
        (pred pa pb : label) (preds pas pbs : list label) (pn pp : Q)
        (rows : list (list Q)),
        is_empty (strip input) = false ->
        prepare b input = (tr0, inr (processed_text, vec)) ->
        predict (model_ensemble b) vec = inr (pred :: preds) ->
        predict_proba (model_ensemble b) vec = inr ([pn; pp] :: rows) ->
        0 <= pn <= 1 -> 0 <= pp <= 1 ->
        predict (model_bnb b) vec = inr (pa :: pas) ->
        predict (model_svm b) vec = inr (pb :: pbs) ->
        let run := shown (analyze times100 b input true details) in
        In (sentiment_headline pred) run
        /\ In (sentiment_chip pa) run
        /\ In (sentiment_chip pb) run
        /\ forall e, ~ In (prediction_failed e) run).
Proof.
  split.
  - intros pred. unfold sentiment_headline, sentiment_chip.
    pose proof (is_positive_spec pred) as Hp.
    destruct (is_positive pred).
    + assert (pred = LStr "positive") by now apply Hp.
      repeat split; auto; try discriminate; intros; contradiction.
    + assert (pred <> LStr "positive")
        by (intros H; apply Hp in H; discriminate).
      repeat split; auto; try discriminate; intros; contradiction.
  - intros b input details tr0 processed_text vec pred pa pb preds pas pbs
      pn pp rows Hin H0 H1 H2 Hpn Hpp Ha Hb run.
    assert (Hrun : run = [st_spinner "Sedang menganalisis sentimen..."]
                         ++ shown (ensemble_view times100 pred pn pp [])
                         ++ shown comparison_heading
                         ++ shown (comparison_view pa pb)
                         ++ shown (details_view details input processed_text)).
    { unfold run.
      erewrite analyze_with_comparison by eassumption.
      change (spinner :: ?l) with ([spinner] ++ l).
      rewrite !shown_app.
      assert (Ht : shown tr0 = [])
        by (pose proof (prepare_shows_nothing b input) as Hs;
            rewrite H0 in Hs; exact Hs).
      rewrite Ht. reflexivity. }
    rewrite Hrun. split; [| split; [| split]].
    + simpl. auto.
    + simpl. auto 20.
    + simpl. auto 20.
    + intros e Hin'.
      unfold ensemble_view, comparison_view, details_view, prediction_failed,
        sentiment_headline, sentiment_chip in Hin'.
      rewrite confidence_info_text in Hin'.
      destruct (is_positive pred), (is_positive pa), (is_positive pb), details;
        simpl in Hin';
        repeat (destruct Hin' as [Hin' | Hin']; [discriminate Hin' |]);
        exact Hin'.
Qed.

(** A run in which every call succeeds renders no failure report. *)
Lemma successful_run_reports_nothing (b : Bundle) (input : str)
    (comparison details : bool) (tr0 : trace) (processed_text : str)
    (vec : FeatureVector) (pred pa pb : label) (preds pas pbs : list label)
    (pn pp : Q) (more : list Q) (rows : list (list Q)) :
  is_empty (strip input) = false ->
  prepare b input = (tr0, inr (processed_text, vec)) ->
  predict (model_ensemble b) vec = inr (pred :: preds) ->
  predict_proba (model_ensemble b) vec = inr ((pn :: pp :: more) :: rows) ->
  predict (model_bnb b) vec = inr (pa :: pas) ->
  predict (model_svm b) vec = inr (pb :: pbs) ->
  forall e,
    ~ In (prediction_failed e)
         (shown (analyze times100 b input comparison details)).
Proof.
  intros Hin H0 H1 H2 Ha Hb e Hrep.
  assert (Ht : shown tr0 = [])
    by (pose proof (prepare_shows_nothing b input) as Hs;
        rewrite H0 in Hs; exact Hs).
  destruct comparison.
  - erewrite analyze_with_comparison in Hrep by eassumption.
    change (spinner :: ?l) with ([spinner] ++ l) in Hrep.
    rewrite !shown_app, Ht in Hrep.
    unfold ensemble_view, comparison_view, details_view, prediction_failed,
      sentiment_headline, sentiment_chip in Hrep.
    rewrite confidence_info_text in Hrep.
    destruct (is_positive pred), (is_positive pa), (is_positive pb), details;
      simpl in Hrep;
      repeat (destruct Hrep as [Hrep | Hrep]; [discriminate Hrep |]);
      exact Hrep.
  - erewrite analyze_plain in Hrep by eassumption.
    change (spinner :: ?l) with ([spinner] ++ l) in Hrep.
    rewrite !shown_app, Ht in Hrep.
    unfold ensemble_view, details_view, prediction_failed,
      sentiment_headline in Hrep.
    rewrite confidence_info_text in Hrep.
    destruct (is_positive pred), details;
      simpl in Hrep;
      repeat (destruct Hrep as [Hrep | Hrep]; [discriminate Hrep |]);
      exact Hrep.
Qed.

Lemma preprocess_text_stages (text : str) (sw st : option LinguisticTool) :
  preprocess_text text sw st = reduce_stages (normalize text) sw st.
Proof.
  unfold preprocess_text, reduce_stages, invoke.
  destruct (if_truthy sw) as [r |], (if_truthy st) as [t |]; simpl.
  - destruct (remove r (normalize text)) as [e | out]; simpl; [reflexivity |].
    destruct (stem t out); reflexivity.
  - destruct (remove r (normalize text)); reflexivity.
  - destruct (stem t (normalize text)); reflexivity.
  - reflexivity.
Qed.

(** C5.  For every input text and every bundle of linguistic tools, that
    is, every dict that holds the two keys, each entry a tool or [None]: the
    reducer calls the stopword remover, if it is there, before the stemmer,
    if it is there, and gives the stemmer what the remover returned; a
    capability that is absent is skipped silently: no call, no exception,
    and with both absent the result is the normalized text.  The pipeline
    still completes: when the stages that are there return and the calls
    that follow succeed (the ensemble's two probabilities in [0, 1]), the
    run renders no failure report. *)
Theorem reducer_order_and_skipping (d : ToolDict) (input : str)
    (sw st : option LinguisticTool) :
  dict_get d "stopword" = ret sw ->
  dict_get d "stemmer" = ret st ->
  lookup_and_preprocess d input = reduce_stages (normalize input) sw st
  /\ (sw = None -> st = None ->
      lookup_and_preprocess d input = ([], inr (normalize input)))
  /\ (forall t, sw = None -> st = Some t -> tool_truthy t = true ->
      lookup_and_preprocess d input
      = ([Call (Stem (normalize input))], stem t (normalize input)))
  /\ (forall r, sw = Some r -> st = None -> tool_truthy r = true ->
      lookup_and_preprocess d input
      = ([Call (Remove (normalize input))], remove r (normalize input)))
  /\ (forall r t out,
      sw = Some r -> st = Some t ->
      tool_truthy r = true -> tool_truthy t = true ->
      remove r (normalize input) = inr out ->
      lookup_and_preprocess d input
      = ([Call (Remove (normalize input)); Call (Stem out)], stem t out))
  /\ (forall (b : Bundle) (comparison details : bool) (tr : trace) (out : str)
        (vec : FeatureVector) (pred pa pb : label) (preds pas pbs : list label)
        (pn pp : Q) (rows : list (list Q)),
      tools b = d ->
      is_empty (strip input) = false ->
      reduce_stages (normalize input) sw st = (tr, inr out) ->
      transform (vectorizer b) [out] = inr vec ->
      predict (model_ensemble b) vec = inr (pred :: preds) ->
      predict_proba (model_ensemble b) vec = inr ([pn; pp] :: rows) ->
      0 <= pn <= 1 -> 0 <= pp <= 1 ->
      predict (model_bnb b) vec = inr (pa :: pas) ->
      predict (model_svm b) vec = inr (pb :: pbs) ->
      prepare b input = (tr ++ [Call (Transform [out])], inr (out, vec))
      /\ forall e,
          ~ In (prediction_failed e)
               (shown (analyze times100 b input comparison details))).
Proof.
  intros Hsw Hst.
  assert (H : lookup_and_preprocess d input
              = reduce_stages (normalize input) sw st).
  { unfold lookup_and_preprocess. rewrite Hsw. unfold ret. cbn [bind].
    rewrite Hst. unfold ret. cbn [bind].
    rewrite preprocess_text_stages.
    destruct (reduce_stages (normalize input) sw st). reflexivity. }
  split; [exact H |].
  split; [| split; [| split; [| split]]].
  - intros -> ->. rewrite H. reflexivity.
  - intros t -> -> Ht. rewrite H. unfold reduce_stages. simpl.
    rewrite Ht. reflexivity.
  - intros r -> -> Hr. rewrite H. unfold reduce_stages. simpl.
    rewrite Hr. reflexivity.
  - intros r t out -> -> Hr Ht Hout. rewrite H. unfold reduce_stages. simpl.
    rewrite Hr, Ht, Hout. reflexivity.
  - intros b comparison details tr out vec pred pa pb preds pas pbs pn pp rows
      Hd Hin Hred Hv H1 H2 Hpn Hpp Ha Hb.
    assert (Hp : prepare b input = (tr ++ [Call (Transform [out])], inr (out, vec))).
    { unfold prepare, invoke. rewrite Hd, H, Hred. cbn [bind]. rewrite Hv.
      reflexivity. }
    split; [exact Hp |].
    eapply successful_run_reports_nothing; eassumption.
Qed.

(** A missing key is reported as a failure of the analysis. *)
Lemma missing_key_reported (b : Bundle) (input : str) (comparison details : bool)
    (key : string) :
  is_empty (strip input) = false ->
  lookup_and_preprocess (tools b) input = ([], inl (KeyError key)) ->
  analyze times100 b input comparison details
  = [spinner; Show (prediction_failed (KeyError key))].
Proof.
  intros Hin H. rewrite analyze_nonblank by exact Hin.
  unfold analysis, prepare. rewrite H. reflexivity.
Qed.

(** C8, amended.  Whenever a classifier raises during [predict] or
    [predict_proba] (a base classifier is reached when the ensemble's two
    probabilities lie in [0, 1]), the run stops at that call and renders
    one failure report made of the exception's text alone: the report is
    the same whichever model raised.  Nothing is rendered for the model
    that raised; the ensemble result, once rendered, stays; a label already
    obtained from the first base model is not rendered when the second one
    raises. *)
Theorem classifier_failure_is_reported (b : Bundle) (input : str)
    (comparison details : bool) (tr0 : trace) (processed_text : str)
    (vec : FeatureVector) (e : exn) :
  is_empty (strip input) = false ->
  prepare b input = (tr0, inr (processed_text, vec)) ->
  let run := analyze times100 b input comparison details in
  (forall tr e',
      analysis times100 b input comparison details = (tr, inl e') ->
      run = spinner :: tr ++ [Show (prediction_failed e')])
  /\ (predict (model_ensemble b) vec = inl e ->
      run = spinner :: tr0
            ++ [Call (Predict Ensemble vec); Show (prediction_failed e)])
  /\ (forall pred preds,
      predict (model_ensemble b) vec = inr (pred :: preds) ->
      predict_proba (model_ensemble b) vec = inl e ->
      run = spinner :: tr0
            ++ [Call (Predict Ensemble vec); Call (PredictProba Ensemble vec);
                Show (prediction_failed e)])
  /\ (forall pred preds pn pp more rows,
      predict (model_ensemble b) vec = inr (pred :: preds) ->
      predict_proba (model_ensemble b) vec = inr ((pn :: pp :: more) :: rows) ->
      0 <= pn <= 1 -> 0 <= pp <= 1 ->
      comparison = true ->
      predict (model_bnb b) vec = inl e ->
      run = spinner :: tr0
            ++ [Call (Predict Ensemble vec); Call (PredictProba Ensemble vec)]
            ++ ensemble_view times100 pred pn pp more
            ++ comparison_heading
            ++ [Call (Predict BernoulliNB vec); Show (prediction_failed e)])
  /\ (forall pred preds pn pp more rows pa pas,
      predict (model_ensemble b) vec = inr (pred :: preds) ->
      predict_proba (model_ensemble b) vec = inr ((pn :: pp :: more) :: rows) ->
      0 <= pn <= 1 -> 0 <= pp <= 1 ->
      comparison = true ->
      predict (model_bnb b) vec = inr (pa :: pas) ->
      predict (model_svm b) vec = inl e ->
      run = spinner :: tr0
            ++ [Call (Predict Ensemble vec); Call (PredictProba Ensemble vec)]
            ++ ensemble_view times100 pred pn pp more
            ++ comparison_heading
            ++ [Call (Predict BernoulliNB vec); Call (Predict LinearSVM vec);
                Show (prediction_failed e)]).
Proof.
  intros Hin H0 run. unfold run. rewrite analyze_nonblank by exact Hin.
  split; [| split; [| split; [| split]]].
  - intros tr e' H. rewrite H. reflexivity.
  - intros H1. unfold analysis. rewrite H0. cbn [bind].
    unfold predict_ensemble, invoke. rewrite H1.
    cbn [bind try_except]. rewrite <- ?app_assoc. reflexivity.
  - intros pred preds H1 H2. unfold analysis. rewrite H0. cbn [bind].
    unfold predict_ensemble, invoke. rewrite H1.
    unfold index, ret. cbn [bind nth_error]. rewrite H2.
    cbn [bind try_except]. rewrite <- ?app_assoc. reflexivity.
  - intros pred preds pn pp more rows H1 H2 Hpn Hpp -> Ha.
    erewrite analysis_after_ensemble by eassumption.
    unfold compare_models, invoke. simpl. rewrite Ha. simpl.
    rewrite <- ?app_assoc. reflexivity.
  - intros pred preds pn pp more rows pa pas H1 H2 Hpn Hpp -> Ha Hb.
    erewrite analysis_after_ensemble by eassumption.
    unfold compare_models, invoke. simpl. rewrite Ha. simpl. rewrite Hb. simpl.
    rewrite <- ?app_assoc. reflexivity.
Qed.

End ScriptProperties.

(** ** The properties on the sample artifacts *)

Lemma sample_prepare :
  prepare sample_bundle sample_review
  = ([Call (Transform [of_string "filmnya bagus banget"])],
     inr (of_string "filmnya bagus banget", sample_vector)).
Proof. reflexivity. Qed.

Lemma comparison_gives_base_labels_only_witness :
  (0 <= 1 # 10 <= 1 /\ 0 <= 9 # 10 <= 1)
  /\ analyze exact100 sample_bundle sample_review true false
     = spinner :: [Call (Transform [of_string "filmnya bagus banget"])]
       ++ [Call (Predict Ensemble sample_vector);
           Call (PredictProba Ensemble sample_vector)]
       ++ ensemble_view exact100 (LStr "positive") (1 # 10) (9 # 10) []
       ++ comparison_heading
       ++ [Call (Predict BernoulliNB sample_vector);
           Call (Predict LinearSVM sample_vector)]
       ++ comparison_view (LStr "negative") (LStr "positive")
       ++ details_view false sample_review (of_string "filmnya bagus banget")
  /\ ~ full_result_for BernoulliNB
         (analyze exact100 sample_bundle sample_review true false).
Proof.
  assert (Hpn : 0 <= 1 # 10 <= 1) by (split; discriminate).
  assert (Hpp : 0 <= 9 # 10 <= 1) by (split; discriminate).
  pose proof (comparison_gives_base_labels_only exact100 sample_bundle
                sample_review false
                [Call (Transform [of_string "filmnya bagus banget"])]
                (of_string "filmnya bagus banget") sample_vector
                (LStr "positive") (LStr "negative") (LStr "positive")
                [] [] [] (1 # 10) (9 # 10) []
                eq_refl sample_prepare eq_refl eq_refl eq_refl eq_refl
                Hpn Hpp) as H.
  split; [exact (conj Hpn Hpp) |].
  split; [exact (proj1 H) | exact (proj1 (proj2 (proj2 (proj2 (proj2 H)))))].
Defined.

(** C1, as stated, fails: with the comparison requested and every call
    succeeding, the calls made are one [transform], the ensemble's [predict]
    and [predict_proba], and [predict] alone on each base model.  No
    probability pair is asked of a base model, and the run is the same when
    the base models' probabilities are changed. *)
Lemma base_models_lack_probability_pair :
  calls (analyze exact100 sample_bundle sample_review true false)
  = [Transform [of_string "filmnya bagus banget"];
     Predict Ensemble sample_vector; PredictProba Ensemble sample_vector;
     Predict BernoulliNB sample_vector; Predict LinearSVM sample_vector]
  /\ ~ full_result_for BernoulliNB
         (analyze exact100 sample_bundle sample_review true false)
  /\ ~ full_result_for LinearSVM
         (analyze exact100 sample_bundle sample_review true false)
  /\ analyze exact100 other_base_probabilities sample_review true false
     = analyze exact100 sample_bundle sample_review true false.
Proof.
  split; [reflexivity |]. split; [| split; [| reflexivity]].
  - intros [_ [v Hv]].
    destruct (analyze_never_asks_base_proba _ _ _ _ _ _ Hv) as [H _].
    discriminate.
  - intros [_ [v Hv]].
    destruct (analyze_never_asks_base_proba _ _ _ _ _ _ Hv) as [_ H].
    discriminate.
Qed.


Lemma blank_input_is_refused_witness :
  forallb is_space blank_input = true
  /\ analyze exact100 sample_bundle blank_input true true
     = [Show empty_input_warning]
  /\ calls (analyze exact100 sample_bundle blank_input true true) = [].
Proof.
  split; [reflexivity |].
  pose proof (blank_input_is_refused exact100 sample_bundle blank_input
                true true eq_refl) as H.
  split; [exact (proj1 H) | exact (proj1 (proj2 H))].
Defined.

Lemma no_base_call_without_comparison_witness :
  In (PredictProba Ensemble sample_vector)
     (calls (analyze exact100 sample_bundle sample_review false false))
  /\ on_model BernoulliNB (PredictProba Ensemble sample_vector) = false
  /\ on_model LinearSVM (PredictProba Ensemble sample_vector) = false
  /\ analyze exact100 bnb_raises sample_review false false
     = analyze exact100 svm_raises sample_review false false.
Proof.
  assert (Hin : In (PredictProba Ensemble sample_vector)
                   (calls (analyze exact100 sample_bundle sample_review
                                   false false)))
    by (simpl; auto).
  pose proof (no_base_call_without_comparison exact100 sample_bundle
                sample_review false) as H.
  split; [exact Hin |].
  split; [exact (proj1 (proj1 H _ Hin)) |].
  split; [exact (proj2 (proj1 H _ Hin)) |].
  exact (proj2 H (broken_classifier "boom") (model_svm sample_bundle)
               (model_bnb sample_bundle) (broken_classifier "boom")).
Defined.

Lemma reducer_order_and_skipping_witness :
  dict_get toy_tools "stopword" = ret (Some toy_tool)
  /\ dict_get toy_tools "stemmer" = ret (Some toy_tool)
  /\ lookup_and_preprocess toy_tools (of_string "The Films!")
     = ([Call (Remove (of_string "the films"));
         Call (Stem (of_string "he films"))],
        inr (of_string "he film"))
  /\ dict_get no_tools "stopword" = ret None
  /\ dict_get no_tools "stemmer" = ret None
  /\ lookup_and_preprocess no_tools (of_string "The Films!")
     = ([], inr (of_string "the films"))
  /\ (0 <= 1 # 10 <= 1 /\ 0 <= 9 # 10 <= 1)
  /\ forall e,
      ~ In (prediction_failed e)
           (shown (analyze exact100 sample_bundle (of_string "The Films!")
                           true true)).
Proof.
  assert (Hpn : 0 <= 1 # 10 <= 1) by (split; discriminate).
  assert (Hpp : 0 <= 9 # 10 <= 1) by (split; discriminate).
  pose proof (reducer_order_and_skipping exact100 toy_tools
                (of_string "The Films!") (Some toy_tool) (Some toy_tool)
                eq_refl eq_refl) as Hboth.
  pose proof (reducer_order_and_skipping exact100 no_tools
                (of_string "The Films!") None None eq_refl eq_refl) as Hnone.
  split; [reflexivity |]. split; [reflexivity |].
  split.
  { exact (proj1 (proj2 (proj2 (proj2 (proj2 Hboth))))
             toy_tool toy_tool (of_string "he films")
             eq_refl eq_refl eq_refl eq_refl eq_refl). }
  split; [reflexivity |]. split; [reflexivity |].
  split; [exact (proj1 (proj2 Hnone) eq_refl eq_refl) |].
  split; [exact (conj Hpn Hpp) |].
  exact (proj2 (proj2 (proj2 (proj2 (proj2 (proj2 Hnone))))
                  sample_bundle true true [] (of_string "the films") [9]
                  (LStr "positive") (LStr "negative") (LStr "positive")
                  [] [] [] (1 # 10) (9 # 10) []
                  eq_refl eq_refl eq_refl eq_refl eq_refl eq_refl
                  Hpn Hpp eq_refl eq_refl)).
Defined.

(** A dict that has no ["stopword"] key is not such a bundle: the lookup of
    line 122 raises [KeyError] and the run ends in a failure report. *)
Lemma absent_stopword_key_is_reported :
  (forall v, ~ In ("stopword", v) stemmer_only)
  /\ analyze exact100 (with_tools sample_bundle stemmer_only) sample_review
             true false
     = [spinner; Show (prediction_failed (KeyError "stopword"))]
  /\ prediction_failed (KeyError "stopword")
     = st_error "Terjadi kesalahan saat proses prediksi: 'stopword'".
Proof.
  split; [| split; reflexivity].
  intros v [H | []]. discriminate.
Qed.

Lemma load_failure_makes_unavailable_witness :
  load_failure sample_files = true
  /\ forall w : Widgets,
      app exact100 (snd (load_model_objects sample_files)) w
      = page_header ++ [Show unavailable_warning]
      /\ calls (app exact100 (snd (load_model_objects sample_files)) w) = [].
Proof.
  split; [reflexivity |].
  exact (proj2 (proj2
           (load_failure_makes_unavailable exact100 sample_files eq_refl))).
Defined.

Lemma classifier_failure_is_reported_witness :
  is_empty (strip sample_review) = false
  /\ (0 <= 1 # 10 <= 1 /\ 0 <= 9 # 10 <= 1)
  /\ predict (model_svm svm_raises) sample_vector = inl (OtherError "boom")
  /\ analyze exact100 svm_raises sample_review true false
     = spinner :: [Call (Transform [of_string "filmnya bagus banget"])]
       ++ [Call (Predict Ensemble sample_vector);
           Call (PredictProba Ensemble sample_vector)]
       ++ ensemble_view exact100 (LStr "positive") (1 # 10) (9 # 10) []
       ++ comparison_heading
       ++ [Call (Predict BernoulliNB sample_vector);
           Call (Predict LinearSVM sample_vector);
           Show (prediction_failed (OtherError "boom"))].
Proof.
  assert (Hpn : 0 <= 1 # 10 <= 1) by (split; discriminate).
  assert (Hpp : 0 <= 9 # 10 <= 1) by (split; discriminate).
  split; [reflexivity |]. split; [exact (conj Hpn Hpp) |].
  split; [reflexivity |].
  exact (proj2 (proj2 (proj2 (proj2
           (classifier_failure_is_reported exact100 svm_raises sample_review
              true false
              [Call (Transform [of_string "filmnya bagus banget"])]
              (of_string "filmnya bagus banget") sample_vector
              (OtherError "boom") eq_refl eq_refl))))
           (LStr "positive") [] (1 # 10) (9 # 10) [] []
           (LStr "negative") []
           eq_refl eq_refl Hpn Hpp eq_refl eq_refl eq_refl).
Defined.

(** C8, as stated, fails: the failure report does not identify the model
    that raised.  When the first base model raises and when the second one
    raises, the same elements are rendered. *)
Lemma failure_report_names_no_model :
  predict (model_bnb bnb_raises) sample_vector = inl (OtherError "boom")
  /\ predict (model_bnb svm_raises) sample_vector = inr [LStr "negative"]
  /\ predict (model_svm svm_raises) sample_vector = inl (OtherError "boom")
  /\ shown (analyze exact100 bnb_raises sample_review true false)
     = shown (analyze exact100 svm_raises sample_review true false)
  /\ last (shown (analyze exact100 bnb_raises sample_review true false))
          st_divider
     = st_error "Terjadi kesalahan saat proses prediksi: boom".
Proof. repeat split. Qed.

Lemma label_decides_sentiment_witness :
  (0 <= 1 # 10 <= 1 /\ 0 <= 9 # 10 <= 1)
  /\ sentiment_headline (LInt 1) = st_error "### ❌ Sentimen: NEGATIF"
  /\ In (sentiment_headline (LInt 1))
        (shown (analyze exact100 numeric_bundle sample_review true false))
  /\ forall e,
      ~ In (prediction_failed e)
           (shown (analyze exact100 numeric_bundle sample_review true false)).
Proof.
  assert (Hpn : 0 <= 1 # 10 <= 1) by (split; discriminate).
  assert (Hpp : 0 <= 9 # 10 <= 1) by (split; discriminate).
  pose proof (label_decides_sentiment exact100) as [Hl Hrun].
  assert (Hneq : LInt 1 <> LStr "positive") by discriminate.
  split; [exact (conj Hpn Hpp) |].
  split; [exact (proj2 (proj1 (proj2 (Hl (LInt 1)))) Hneq) |].
  pose proof (Hrun numeric_bundle sample_review false
                [Call (Transform [of_string "filmnya bagus banget"])]
                (of_string "filmnya bagus banget") sample_vector
                (LInt 1) (LInt 0) (LInt 1) [] [] [] (1 # 10) (9 # 10) []
                eq_refl eq_refl eq_refl eq_refl Hpn Hpp eq_refl eq_refl) as H.
  split; [exact (proj1 H) | exact (proj2 (proj2 (proj2 H)))].
Defined.

(** * Further properties of the normalizer *)

Lemma filter_sub_runs (cls P : char -> bool) :
  (forall c, cls c = true -> P c = false) -> P SPACE = false ->
  forall s b, filter P (sub_runs cls b s) = filter P s.
Proof.
  intros Hcls Hsp. induction s as [| c r IH]; intros b; simpl; [reflexivity |].
  destruct (cls c) eqn:E.
  - rewrite (Hcls _ E). destruct b; simpl; rewrite ?Hsp; apply IH.
  - simpl. now rewrite IH.
Qed.

Lemma filter_lstrip (P : char -> bool) :
  (forall c, is_space c = true -> P c = false) ->
  forall s, filter P (lstrip s) = filter P s.
Proof.
  intros Hsp. induction s as [| c r IH]; simpl; [reflexivity |].
  destruct (is_space c) eqn:E; [| reflexivity].
  now rewrite (Hsp _ E).
Qed.

Lemma filter_rstrip (P : char -> bool) :
  (forall c, is_space c = true -> P c = false) ->
  forall s, filter P (rstrip s) = filter P s.
Proof.
  intros Hsp. induction s as [| c r IH]; [reflexivity |].
  simpl rstrip. destruct (rstrip r) as [| d t].
  - simpl in IH. simpl filter at 2. rewrite <- IH.
    destruct (is_space c) eqn:E.
    + now rewrite (Hsp _ E).
    + reflexivity.
  - simpl filter at 2. rewrite <- IH. reflexivity.
Qed.

Lemma space_not_lower (c : char) : is_space c = true -> is_lower c = false.
Proof.
  intros H. destruct (is_lower c) eqn:E; [| reflexivity].
  rewrite (lower_not_space _ E) in H. discriminate.
Qed.

Lemma lower_char_is_lower (c : char) : is_lower (lower_char c) = is_letter c.
Proof.
  unfold lower_char, is_letter. destruct (is_upper c) eqn:E; simpl.
  - class_facts. lia.
  - reflexivity.
Qed.

Lemma filter_lower (s : str) :
  filter is_lower (lower s) = lower (filter is_letter s).
Proof.
  unfold lower. induction s as [| c r IH]; simpl; [reflexivity |].
  rewrite lower_char_is_lower. destruct (is_letter c); simpl; now rewrite IH.
Qed.

(** The letters of the normalized text are the ASCII letters of the input,
    lowered, in the same order: nothing but non-letters is dropped and
    nothing but spaces is added. *)
Theorem normalize_keeps_letters (text : str) :
  filter is_lower (normalize text) = lower (filter is_letter text)
  /\ forallb lower_or_space (normalize text) = true.
Proof.
  split.
  - unfold normalize, re_sub, strip.
    rewrite (filter_sub_runs is_space is_lower space_not_lower eq_refl).
    rewrite (filter_rstrip is_lower space_not_lower).
    rewrite (filter_lstrip is_lower space_not_lower).
    rewrite filter_lower. f_equal.
    apply filter_sub_runs; [| reflexivity].
    intros c H. now apply negb_true_iff in H.
  - pose proof (normalize_normalized text) as H. unfold normalized in H.
    apply andb_true_iff in H as [H _]. apply andb_true_iff in H as [H _].
    now apply andb_true_iff in H as [H _].
Qed.

Lemma filter_nil_none (P : char -> bool) (s : str) :
  filter P s = [] -> forallb (fun c => negb (P c)) s = true.
Proof.
  induction s as [| c r IH]; simpl; [reflexivity |].
  destruct (P c); [discriminate | exact IH].
Qed.

Lemma none_filter_nil (P : char -> bool) (s : str) :
  forallb (fun c => negb (P c)) s = true -> filter P s = [].
Proof.
  induction s as [| c r IH]; simpl; [reflexivity |].
  destruct (P c); [discriminate | exact IH].
Qed.

(** The normalized text is empty exactly when the input holds no ASCII
    letter: digits, punctuation and non-ASCII text normalize to nothing. *)
Theorem normalize_empty_iff (text : str) :
  normalize text = [] <-> forallb non_letter text = true.
Proof.
  destruct (normalize_keeps_letters text) as [Hk _].
  split.
  - intros H. rewrite H in Hk. simpl in Hk.
    apply filter_nil_none. unfold lower in Hk.
    destruct (filter is_letter text); [reflexivity | discriminate].
  - intros H. rewrite (none_filter_nil is_letter text H) in Hk. simpl in Hk.
    pose proof (normalize_normalized text) as Hn. unfold normalized in Hn.
    apply andb_true_iff in Hn as [Hn _]. apply andb_true_iff in Hn as [Hn _].
    apply andb_true_iff in Hn as [Hall Hsc].
    destruct (normalize text) as [| c r]; [reflexivity |].
    simpl in *. apply andb_true_iff in Hall as [Hc _].
    unfold lower_or_space in Hc. apply negb_true_iff in Hsc.
    rewrite Hsc, orb_false_r in Hc. rewrite Hc in Hk. discriminate.
Qed.

Lemma sub_runs_length (cls : char -> bool) (s : str) :
  forall b, (List.length (sub_runs cls b s) <= List.length s)%nat.
Proof.
  induction s as [| c r IH]; intros b; simpl; [lia |].
  pose proof (IH true). pose proof (IH false).
  destruct (cls c); [destruct b |]; simpl; lia.
Qed.

Lemma lstrip_length (s : str) : (List.length (lstrip s) <= List.length s)%nat.
Proof.
  induction s as [| c r IH]; simpl; [lia |].
  destruct (is_space c); simpl; lia.
Qed.

Lemma rstrip_length (s : str) : (List.length (rstrip s) <= List.length s)%nat.
Proof.
  induction s as [| c r IH]; simpl; [lia |].
  destruct (rstrip r); [destruct (is_space c) |]; simpl in *; lia.
Qed.

(** Normalizing never makes the text longer. *)
Theorem normalize_length (text : str) :
  (List.length (normalize text) <= List.length text)%nat.
Proof.
  unfold normalize, re_sub, strip.
  pose proof (sub_runs_length is_space
                (rstrip (lstrip (lower (sub_runs non_letter false text)))) false).
  pose proof (rstrip_length (lstrip (lower (sub_runs non_letter false text)))).
  pose proof (lstrip_length (lower (sub_runs non_letter false text))).
  pose proof (sub_runs_length non_letter text false).
  unfold lower in *. rewrite length_map in *. lia.
Qed.

Lemma lower_char_idempotent (c : char) : lower_char (lower_char c) = lower_char c.
Proof.
  unfold lower_char. destruct (is_upper c) eqn:E; [| now rewrite E].
  destruct (is_upper (c + 32)%N) eqn:E'; [| reflexivity].
  exfalso. class_facts. lia.
Qed.

Lemma non_letter_lower_char (c : char) :
  non_letter (lower_char c) = non_letter c.
Proof.
  unfold non_letter. f_equal. unfold lower_char.
  destruct (is_upper c) eqn:E; [| reflexivity].
  unfold is_letter. rewrite E. simpl.
  apply orb_true_iff. right. class_facts. lia.
Qed.

Lemma sub_runs_lower (s : str) :
  forall b, sub_runs non_letter b (lower s) = lower (sub_runs non_letter b s).
Proof.
  unfold lower. induction s as [| c r IH]; intros b; simpl; [reflexivity |].
  rewrite non_letter_lower_char. destruct (non_letter c).
  - destruct b; simpl; now rewrite IH.
  - simpl. now rewrite IH.
Qed.

(** Normalizing does not see the case of ASCII letters: lowering the input
    first gives the same text. *)
Theorem normalize_ignores_case (text : str) :
  normalize (lower text) = normalize text.
Proof.
  unfold normalize, re_sub. rewrite sub_runs_lower.
  assert (H : forall t, lower (lower t) = lower t).
  { intros t. unfold lower. rewrite map_map. apply map_ext.
    apply lower_char_idempotent. }
  now rewrite H.
Qed.

(** * Further properties of the script *)

(** ** Loading *)

(** Loading is all or nothing: either the five files load, the five objects
    are returned and nothing is rendered, or five [None] are returned;
    never some of the objects. *)
Theorem load_all_or_nothing (fs : Files) :
  (load_failure fs = false
   /\ exists bnb svm ens vec tls,
       file_bernoulli_nb fs = inr bnb /\ file_linear_svm fs = inr svm
       /\ file_ensemble_voting fs = inr ens /\ file_vectorizer_tfidf fs = inr vec
       /\ file_preprocessing_tools fs = inr tls
       /\ load_model_objects fs
          = ([], (Some bnb, Some svm, Some ens, Some vec, Some tls)))
  \/ (load_failure fs = true
      /\ snd (load_model_objects fs) = nothing_loaded).
Proof.
  destruct (load_failure fs) eqn:E.
  - right. split; [reflexivity |]. now apply load_failure_loads_nothing.
  - left. split; [reflexivity |].
    unfold load_failure in E. destruct fs as [f1 f2 f3 f4 f5]. simpl in *.
    destruct f1 as [e1 | bnb]; [discriminate |].
    destruct f2 as [e2 | svm]; [discriminate |].
    destruct f3 as [e3 | ens]; [discriminate |].
    destruct f4 as [e4 | vec]; [discriminate |].
    destruct f5 as [e5 | tls]; [discriminate |].
    exists bnb, svm, ens, vec, tls. repeat split.
Qed.

(** The loader reports the first file that fails, in the order of the
    script, and that one only: as a missing file when the exception is a
    [FileNotFoundError], as a loading error otherwise. *)
Theorem load_reports_first_failure (fs : Files) (e : exn) :
  first_failure fs = Some e ->
  fst (load_model_objects fs)
  = [Show (st_error
       (if is_file_not_found e
        then ("⚠️ Error: File model tidak ditemukan (" ++ exn_text e
              ++ "). Pastikan file .pkl sudah diupload.")%string
        else ("⚠️ Error saat memuat model: " ++ exn_text e)%string))].
Proof.
  unfold first_failure, load_model_objects, joblib_load.
  destruct fs as [f1 f2 f3 f4 f5]. simpl.
  destruct f1 as [e1 | c1]; simpl;
    [intros [= ->]; destruct e; reflexivity |].
  destruct f2 as [e2 | c2]; simpl;
    [intros [= ->]; destruct e; reflexivity |].
  destruct f3 as [e3 | c3]; simpl;
    [intros [= ->]; destruct e; reflexivity |].
  destruct f4 as [e4 | c4]; simpl;
    [intros [= ->]; destruct e; reflexivity |].
  destruct f5 as [e5 | c5]; simpl;
    [intros [= ->]; destruct e; reflexivity |].
  discriminate.
Qed.

Lemma load_reports_first_failure_witness :
  first_failure sample_files = Some (FileNotFoundError "vectorizer_tfidf.pkl")
  /\ fst (load_model_objects sample_files)
     = [Show (st_error "⚠️ Error: File model tidak ditemukan (vectorizer_tfidf.pkl). Pastikan file .pkl sudah diupload.")].
Proof.
  split; [reflexivity |].
  exact (load_reports_first_failure sample_files
           (FileNotFoundError "vectorizer_tfidf.pkl") eq_refl).
Defined.

(** ** The page *)

(** The script calls an artifact only when the models are loaded and truthy,
    the button is pressed and the input is not blank. *)
Theorem app_calls_only_on_request (times100 : Q -> Q) (loaded : Loaded)
    (w : Widgets) (c : call) :
  In c (calls (app times100 loaded w)) ->
  (exists b, models_loaded loaded = Some b)
  /\ predict_btn w = true
  /\ is_empty (strip (input_text w)) = false.
Proof.
  unfold app. rewrite calls_app. simpl.
  destruct (models_loaded loaded) as [b |]; simpl; [| contradiction].
  destruct (predict_btn w); simpl; [| contradiction].
  unfold analyze. destruct (is_empty (strip (input_text w)));
    simpl; [contradiction |].
  intros _. repeat split. now exists b.
Qed.

Lemma app_calls_only_on_request_witness :
  In (Transform [of_string "filmnya bagus banget"])
     (calls (app exact100 (snd (load_model_objects complete_files))
                 (pressed sample_review)))
  /\ (exists b, models_loaded (snd (load_model_objects complete_files)) = Some b)
  /\ predict_btn (pressed sample_review) = true
  /\ is_empty (strip (input_text (pressed sample_review))) = false.
Proof.
  assert (Hin : In (Transform [of_string "filmnya bagus banget"])
                   (calls (app exact100 (snd (load_model_objects complete_files))
                               (pressed sample_review))))
    by (simpl; auto).
  split; [exact Hin |].
  exact (app_calls_only_on_request exact100 _ _ _ Hin).
Defined.

(** Objects that loaded but are not all truthy count as missing: with an
    empty [tools] dict, or a falsy classifier or vectorizer, every run
    renders the unavailable warning and nothing more. *)
Theorem falsy_artifact_makes_unavailable (times100 : Q -> Q)
    (bnb svm ens : Classifier) (vec : Vectorizer) (tls : ToolDict)
    (w : Widgets) :
  tls = [] \/ clf_truthy bnb = false \/ clf_truthy svm = false
  \/ clf_truthy ens = false \/ vec_truthy vec = false ->
  app times100 (Some bnb, Some svm, Some ens, Some vec, Some tls) w
  = page_header ++ [Show unavailable_warning].
Proof.
  intros H. unfold app, models_loaded.
  assert (E : clf_truthy bnb && clf_truthy svm && clf_truthy ens
              && vec_truthy vec
              && negb (match tls with [] => true | _ => false end) = false).
  { destruct (clf_truthy bnb), (clf_truthy svm), (clf_truthy ens),
      (vec_truthy vec), tls; simpl; try reflexivity;
      destruct H as [H | [H | [H | [H | H]]]]; discriminate. }
  rewrite E. reflexivity.
Qed.

Lemma falsy_artifact_makes_unavailable_witness :
  app exact100
      (Some (model_bnb sample_bundle), Some (model_svm sample_bundle),
       Some (model_ensemble sample_bundle), Some length_vectorizer, Some [])
      (pressed sample_review)
  = page_header ++ [Show unavailable_warning].
Proof.
  apply (falsy_artifact_makes_unavailable exact100). left. reflexivity.
Defined.

(** ** Preprocessing and vectorization in a run *)

Lemma lookup_with_values (d : ToolDict) (input : str)
    (sw st : option LinguisticTool) :
  dict_get d "stopword" = ret sw ->
  dict_get d "stemmer" = ret st ->
  lookup_and_preprocess d input = reduce_stages (normalize input) sw st.
Proof.
  intros Hsw Hst. unfold lookup_and_preprocess.
  rewrite Hsw. unfold ret. cbn [bind]. rewrite Hst. unfold ret. cbn [bind].
  rewrite preprocess_text_stages.
  destruct (reduce_stages (normalize input) sw st). reflexivity.
Qed.

Lemma bind_prefix {A B} (m : M A) (k : A -> M B) :
  exists rest, fst (bind m k) = fst m ++ rest.
Proof.
  destruct m as [tr [e | a]]; simpl.
  - exists []. now rewrite app_nil_r.
  - destruct (k a) as [tr' r]. now exists tr'.
Qed.

Lemma try_except_prefix (body : M unit) (handler : exn -> trace) :
  exists rest, try_except body handler = fst body ++ rest.
Proof.
  destruct body as [tr [e | u]]; simpl.
  - now exists (handler e).
  - exists []. now rewrite app_nil_r.
Qed.

(** An input that is not blank but holds no ASCII letter passes the
    empty-input check, and with no tool at work the vectorizer is called on
    the empty document. *)
Theorem letterless_input_is_vectorized_empty (times100 : Q -> Q) (b : Bundle)
    (input : str) (comparison details : bool) (sw st : option LinguisticTool) :
  is_empty (strip input) = false ->
  forallb non_letter input = true ->
  dict_get (tools b) "stopword" = ret sw -> if_truthy sw = None ->
  dict_get (tools b) "stemmer" = ret st -> if_truthy st = None ->
  exists rest,
    analyze times100 b input comparison details
    = spinner :: Call (Transform [[]]) :: rest.
Proof.
  intros Hin Hnl Hsw Hsw' Hst Hst'.
  rewrite analyze_nonblank by exact Hin.
  destruct (try_except_prefix (analysis times100 b input comparison details)
              (fun e => [Show (prediction_failed e)])) as [r1 ->].
  unfold analysis.
  match goal with
  | |- context [fst (bind ?m ?k)] => destruct (bind_prefix m k) as [r2 ->]
  end.
  unfold prepare.
  rewrite (lookup_with_values _ input _ _ Hsw Hst).
  unfold reduce_stages. rewrite Hsw', Hst'.
  apply normalize_empty_iff in Hnl. rewrite Hnl. cbn [bind].
  match goal with
  | |- context [let (_, _) := bind ?m ?k in _] =>
      destruct (bind_prefix m k) as [r3 E]; destruct (bind m k) as [tr3 x]
  end.
  simpl in E. subst tr3. simpl. eexists. reflexivity.
Qed.

Lemma letterless_input_is_vectorized_empty_witness :
  is_empty (strip letterless_review) = false
  /\ forallb non_letter letterless_review = true
  /\ exists rest,
      analyze exact100 sample_bundle letterless_review true false
      = spinner :: Call (Transform [[]]) :: rest.
Proof.
  split; [reflexivity |]. split; [reflexivity |].
  exact (letterless_input_is_vectorized_empty exact100 sample_bundle
           letterless_review true false None None
           eq_refl eq_refl eq_refl eq_refl eq_refl eq_refl).
Defined.

(** When the stopword remover raises, or the stemmer after it, the run ends
    there with the failure report: the vectorizer and the classifiers are
    not called. *)
Theorem tool_failure_stops_the_run (times100 : Q -> Q) (b : Bundle)
    (input : str) (comparison details : bool)
    (sw st : option LinguisticTool) (e : exn) :
  is_empty (strip input) = false ->
  dict_get (tools b) "stopword" = ret sw ->
  dict_get (tools b) "stemmer" = ret st ->
  (forall r, if_truthy sw = Some r -> remove r (normalize input) = inl e ->
     analyze times100 b input comparison details
     = [spinner; Call (Remove (normalize input)); Show (prediction_failed e)])
  /\ (forall t, if_truthy sw = None -> if_truthy st = Some t ->
      stem t (normalize input) = inl e ->
      analyze times100 b input comparison details
      = [spinner; Call (Stem (normalize input)); Show (prediction_failed e)])
  /\ (forall r t out, if_truthy sw = Some r -> if_truthy st = Some t ->
      remove r (normalize input) = inr out -> stem t out = inl e ->
      analyze times100 b input comparison details
      = [spinner; Call (Remove (normalize input)); Call (Stem out);
         Show (prediction_failed e)]).
Proof.
  intros Hin Hsw Hst.
  rewrite analyze_nonblank by exact Hin.
  unfold analysis, prepare.
  rewrite (lookup_with_values _ input _ _ Hsw Hst). unfold reduce_stages.
  split; [| split].
  - intros r Hr He. rewrite Hr.
    destruct (if_truthy st); rewrite He; reflexivity.
  - intros t Hn Ht He. rewrite Hn, Ht, He. reflexivity.
  - intros r t out Hr Ht Hout He. rewrite Hr, Ht, Hout, He. reflexivity.
Qed.

Lemma tool_failure_stops_the_run_witness :
  analyze exact100
          (with_tools sample_bundle
             [("stopword", Some toy_tool); ("stemmer", Some (broken_tool "no stem"))])
          sample_review true true
  = [spinner; Call (Remove (of_string "filmnya bagus banget"));
     Call (Stem (of_string "ilmnya bagus banget"));
     Show (prediction_failed (OtherError "no stem"))].
Proof.
  exact (proj2 (proj2
           (tool_failure_stops_the_run exact100
              (with_tools sample_bundle
                 [("stopword", Some toy_tool);
                  ("stemmer", Some (broken_tool "no stem"))])
              sample_review true true
              (Some toy_tool) (Some (broken_tool "no stem"))
              (OtherError "no stem") eq_refl eq_refl eq_refl))
           toy_tool (broken_tool "no stem") (of_string "ilmnya bagus banget")
           eq_refl eq_refl eq_refl eq_refl).
Defined.

(** When the vectorizer raises, the run ends with the failure report and no
    classifier is called. *)
Theorem vectorizer_failure_stops_the_run (times100 : Q -> Q) (b : Bundle)
    (input : str) (comparison details : bool) (tr : trace)
    (processed_text : str) (e : exn) :
  is_empty (strip input) = false ->
  lookup_and_preprocess (tools b) input = (tr, inr processed_text) ->
  transform (vectorizer b) [processed_text] = inl e ->
  analyze times100 b input comparison details
  = spinner :: tr ++ [Call (Transform [processed_text]);
                      Show (prediction_failed e)].
Proof.
  intros Hin Hp Ht. rewrite analyze_nonblank by exact Hin.
  unfold analysis, prepare, invoke. rewrite Hp. cbn [bind]. rewrite Ht.
  cbn [bind try_except]. rewrite <- ?app_assoc. reflexivity.
Qed.

Lemma vectorizer_failure_stops_the_run_witness :
  analyze exact100 (with_vectorizer sample_bundle (broken_vectorizer "not fitted"))
          sample_review true true
  = spinner :: [] ++ [Call (Transform [of_string "filmnya bagus banget"]);
                      Show (prediction_failed (OtherError "not fitted"))].
Proof.
  exact (vectorizer_failure_stops_the_run exact100
           (with_vectorizer sample_bundle (broken_vectorizer "not fitted"))
           sample_review true true [] (of_string "filmnya bagus banget")
           (OtherError "not fitted") eq_refl eq_refl eq_refl).
Defined.

(** ** Malformed answers of the ensemble *)

(** When the ensemble's [predict] returns an empty array, indexing it fails:
    the run reports an [IndexError] and [predict_proba] is not called.  When
    [predict_proba] returns an empty array the run reports the same after
    both calls; nothing of the result is rendered in either case. *)
Theorem empty_prediction_is_reported (times100 : Q -> Q) (b : Bundle)
    (input : str) (comparison details : bool) (tr0 : trace)
    (processed_text : str) (vec : FeatureVector) :
  is_empty (strip input) = false ->
  prepare b input = (tr0, inr (processed_text, vec)) ->
  (predict (model_ensemble b) vec = inr [] ->
   analyze times100 b input comparison details
   = spinner :: tr0
     ++ [Call (Predict Ensemble vec);
         Show (prediction_failed (IndexError (out_of_bounds 0 0)))])
  /\ (forall pred preds,
      predict (model_ensemble b) vec = inr (pred :: preds) ->
      predict_proba (model_ensemble b) vec = inr [] ->
      analyze times100 b input comparison details
      = spinner :: tr0
        ++ [Call (Predict Ensemble vec); Call (PredictProba Ensemble vec);
            Show (prediction_failed (IndexError (out_of_bounds 0 0)))]).
Proof.
  intros Hin H0. rewrite analyze_nonblank by exact Hin.
  unfold analysis. rewrite H0. cbn [bind]. unfold predict_ensemble, invoke.
  split.
  - intros H1. rewrite H1. unfold index, raise. cbn [bind nth_error try_except].
    rewrite <- ?app_assoc. reflexivity.
  - intros pred preds H1 H2. rewrite H1.
    unfold index, ret, raise. cbn [bind nth_error]. rewrite H2.
    cbn [bind nth_error try_except]. rewrite <- ?app_assoc. reflexivity.
Qed.

Lemma empty_prediction_is_reported_witness :
  analyze exact100 (with_ensemble sample_bundle empty_classifier)
          sample_review true false
  = spinner :: [Call (Transform [of_string "filmnya bagus banget"])]
    ++ [Call (Predict Ensemble sample_vector);
        Show (prediction_failed (IndexError (out_of_bounds 0 0)))].
Proof.
  exact (proj1
           (empty_prediction_is_reported exact100
              (with_ensemble sample_bundle empty_classifier)
              sample_review true false
              [Call (Transform [of_string "filmnya bagus banget"])]
              (of_string "filmnya bagus banget") sample_vector
              eq_refl eq_refl)
           eq_refl).
Defined.

(** When the ensemble's row of probabilities is too short the result is
    rendered in part before the failure report.  With an empty row only the
    divider and the heading are rendered, then [max] fails.  With a single
    probability [p] the sentiment and the confidence for [p] are rendered
    too, then reading [prob_ensemble[1]] fails and no progress bar is
    rendered. *)
Theorem short_probability_row_renders_in_part (times100 : Q -> Q) (b : Bundle)
    (input : str) (comparison details : bool) (tr0 : trace)
    (processed_text : str) (vec : FeatureVector)
    (pred : label) (preds : list label) (rows : list (list Q)) :
  is_empty (strip input) = false ->
  prepare b input = (tr0, inr (processed_text, vec)) ->
  predict (model_ensemble b) vec = inr (pred :: preds) ->
  (predict_proba (model_ensemble b) vec = inr ([] :: rows) ->
   analyze times100 b input comparison details
   = spinner :: tr0
     ++ [Call (Predict Ensemble vec); Call (PredictProba Ensemble vec);
         Show st_divider; Show (st_subheader "🎯 Hasil Analisis (Ensemble)");
         Show (prediction_failed
                 (ValueError "max() arg is an empty sequence"))])
  /\ (forall p,
      predict_proba (model_ensemble b) vec = inr ([p] :: rows) ->
      analyze times100 b input comparison details
      = spinner :: tr0
        ++ [Call (Predict Ensemble vec); Call (PredictProba Ensemble vec);
            Show st_divider; Show (st_subheader "🎯 Hasil Analisis (Ensemble)");
            Show (sentiment_headline pred);
            Show (confidence_info (times100 p));
            Show (st_write "**📊 Probabilitas Detail:**");
            Show (prediction_failed (IndexError (out_of_bounds 1 1)))]).
Proof.
  intros Hin H0 H1. rewrite analyze_nonblank by exact Hin.
  unfold analysis. rewrite H0. cbn [bind].
  split.
  - intros H2. rewrite (predict_ensemble_ok b vec _ _ _ _ H1 H2).
    cbn [bind]. unfold show_ensemble. simpl.
    rewrite <- ?app_assoc. reflexivity.
  - intros p H2. rewrite (predict_ensemble_ok b vec _ _ _ _ H1 H2).
    cbn [bind]. unfold show_ensemble. simpl.
    rewrite <- ?app_assoc. reflexivity.
Qed.

Lemma short_probability_row_renders_in_part_witness :
  analyze exact100
          (with_ensemble sample_bundle
             (constant_classifier (LStr "negative") [1]))
          sample_review true false
  = spinner :: [Call (Transform [of_string "filmnya bagus banget"])]
    ++ [Call (Predict Ensemble sample_vector);
        Call (PredictProba Ensemble sample_vector);
        Show st_divider; Show (st_subheader "🎯 Hasil Analisis (Ensemble)");
        Show (sentiment_headline (LStr "negative"));
        Show (confidence_info (exact100 1));
        Show (st_write "**📊 Probabilitas Detail:**");
        Show (prediction_failed (IndexError (out_of_bounds 1 1)))].
Proof.
  exact (proj2
           (short_probability_row_renders_in_part exact100
              (with_ensemble sample_bundle
                 (constant_classifier (LStr "negative") [1]))
              sample_review true false
              [Call (Transform [of_string "filmnya bagus banget"])]
              (of_string "filmnya bagus banget") sample_vector
              (LStr "negative") [] [] eq_refl eq_refl eq_refl)
           1 eq_refl).
Defined.

(** Once the ensemble has answered with a label and at least two
    probabilities, the first two in [0, 1], its result is rendered in full
    whatever the base classifiers are or do, with or without the
    comparison. *)
Theorem ensemble_result_survives_base_models (times100 : Q -> Q) (b : Bundle)
    (bnb svm : Classifier) (input : str) (comparison details : bool)
    (tr0 : trace) (processed_text : str) (vec : FeatureVector)
    (pred : label) (preds : list label) (pn pp : Q) (more : list Q)
    (rows : list (list Q)) :
  is_empty (strip input) = false ->
  prepare b input = (tr0, inr (processed_text, vec)) ->
  predict (model_ensemble b) vec = inr (pred :: preds) ->
  predict_proba (model_ensemble b) vec = inr ((pn :: pp :: more) :: rows) ->
  0 <= pn <= 1 -> 0 <= pp <= 1 ->
  exists rest,
    analyze times100 (with_base b bnb svm) input comparison details
    = spinner :: tr0
      ++ [Call (Predict Ensemble vec); Call (PredictProba Ensemble vec)]
      ++ ensemble_view times100 pred pn pp more ++ rest.
Proof.
  intros Hin H0 H1 H2 Hpn Hpp.
  apply (analyze_shows_ensemble times100 (with_base b bnb svm) input
           comparison details tr0 processed_text vec pred preds pn pp more rows);
    assumption.
Qed.

Lemma ensemble_result_survives_base_models_witness :
  (0 <= 1 # 10 <= 1 /\ 0 <= 9 # 10 <= 1)
  /\ exists rest,
      analyze exact100
              (with_base sample_bundle (broken_classifier "boom") empty_classifier)
              sample_review true true
      = spinner :: [Call (Transform [of_string "filmnya bagus banget"])]
        ++ [Call (Predict Ensemble sample_vector);
            Call (PredictProba Ensemble sample_vector)]
        ++ ensemble_view exact100 (LStr "positive") (1 # 10) (9 # 10) [] ++ rest.
Proof.
  assert (Hpn : 0 <= 1 # 10 <= 1) by (split; discriminate).
  assert (Hpp : 0 <= 9 # 10 <= 1) by (split; discriminate).
  split; [exact (conj Hpn Hpp) |].
  exact (ensemble_result_survives_base_models exact100 sample_bundle
           (broken_classifier "boom") empty_classifier sample_review true true
           [Call (Transform [of_string "filmnya bagus banget"])]
           (of_string "filmnya bagus banget") sample_vector
           (LStr "positive") [] (1 # 10) (9 # 10) [] []
           eq_refl eq_refl eq_refl eq_refl Hpn Hpp).
Defined.

(** ** Order of the badges *)

(** The badge grows with the percentage: above a High percentage all is
    High, below a Low one all is Low; and equal rationals, whatever their
    fractions, get one badge. *)
Theorem confidence_badge_monotone (p q : Q) :
  p <= q ->
  (get_confidence_badge p = High -> get_confidence_badge q = High)
  /\ (get_confidence_badge q = Low -> get_confidence_badge p = Low)
  /\ (q <= p -> get_confidence_badge p = get_confidence_badge q).
Proof.
  intros Hpq. split; [| split].
  - rewrite !badge_high. intros H. exact (Qlt_le_trans _ _ _ H Hpq).
  - rewrite !badge_low. intros H. exact (Qle_trans _ _ _ Hpq H).
  - intros Hqp.
    assert (E : forall t, Qgtb p t = Qgtb q t).
    { intros t. destruct (Qgtb q t) eqn:E.
      - apply Qgtb_true in E. apply Qgtb_true. exact (Qlt_le_trans _ _ _ E Hqp).
      - apply Qgtb_false in E. apply Qgtb_false. exact (Qle_trans _ _ _ Hpq E). }
    unfold get_confidence_badge. now rewrite !E.
Qed.

Lemma confidence_badge_monotone_witness :
  (161 # 2) <= 90
  /\ (get_confidence_badge (161 # 2) = High -> get_confidence_badge 90 = High).
Proof.
  split; [discriminate |].
  exact (proj1 (confidence_badge_monotone (161 # 2) 90 ltac:(discriminate))).
Defined.

(** ** A run as a whole *)

Lemma dict_get_result (d : ToolDict) (key : string) :
  dict_get d key = ([], snd (dict_get d key)).
Proof.
  induction d as [| [k v] rest IH]; simpl; [reflexivity |].
  destruct (String.eqb k key); [reflexivity | exact IH].
Qed.

(** Splits on the first undecided test of the goal. *)
Ltac split_on_first_test :=
  match goal with
  | |- context [match ?x with _ => _ end] =>
      lazymatch x with
      | context [match _ with _ => _ end] => fail
      | _ => destruct x
      end
  end.

Ltac unfold_run :=
  unfold analyze, try_except, analysis, prepare, lookup_and_preprocess,
    preprocess_text, if_truthy, predict_ensemble, show_ensemble,
    compare_models, show_preprocessing, invoke, index, py_max, st, ret, raise;
  rewrite (dict_get_result _ "stopword"), (dict_get_result _ "stemmer").

(** In every run the artifacts are called in the order of the script:
    remover, stemmer, vectorizer, ensemble [predict], ensemble
    [predict_proba], first base model, second base model; none is called
    twice and [predict_proba] of a base model is never called. *)
Theorem calls_follow_script_order (times100 : Q -> Q) (b : Bundle)
    (input : str) (comparison details : bool) :
  increasing_from 0
    (map rank (calls (analyze times100 b input comparison details))) = true
  /\ Forall (fun r => (r < 7)%nat)
       (map rank (calls (analyze times100 b input comparison details))).
Proof.
  unfold_run.
  repeat (cbn [bind fst snd app nth_error]; split_on_first_test);
    cbn; split; try reflexivity; repeat constructor.
Qed.

Lemma analyze_report_only_last (times100 : Q -> Q) (b : Bundle)
    (input : str) (comparison details : bool) :
  report_only_last (shown (analyze times100 b input comparison details)) = true.
Proof.
  unfold_run. unfold sentiment_headline, sentiment_chip, confidence_info,
    get_confidence_badge.
  repeat (cbn [bind fst snd app nth_error]; split_on_first_test);
    reflexivity.
Qed.

Lemma report_only_last_spec (l : list element) :
  report_only_last l = true ->
  forall before e after,
    l = before ++ e :: after -> is_failure_report e = true -> after = [].
Proof.
  induction l as [| x rest IH]; intros H before e after Hl He.
  - destruct before; discriminate.
  - destruct before as [| y before]; simpl in Hl; injection Hl as <- ->.
    + simpl in H. destruct after; [reflexivity |].
      rewrite He in H. discriminate.
    + apply (IH) with (before := before) (e := e); trivial.
      simpl in H. destruct (before ++ e :: after) eqn:E.
      * destruct before; discriminate.
      * now apply andb_true_iff in H.
Qed.

(** The handler's report is recognised whatever the exception, and a run
    renders nothing after a failure report: there is at most one, and it is
    the last element. *)
Theorem failure_report_ends_the_run (times100 : Q -> Q) (b : Bundle)
    (input : str) (comparison details : bool) :
  (forall e, is_failure_report (prediction_failed e) = true)
  /\ forall before e after,
      shown (analyze times100 b input comparison details)
      = before ++ e :: after ->
      is_failure_report e = true -> after = [].
Proof.
  split.
  - intros e. unfold is_failure_report, prediction_failed.
    destruct (exn_text e); vm_compute; reflexivity.
  - apply report_only_last_spec, analyze_report_only_last.
Qed.

Lemma failure_report_ends_the_run_witness :
  shown (analyze exact100 bnb_raises sample_review true true)
  = (st_spinner "Sedang menganalisis sentimen..."
     :: shown (ensemble_view exact100 (LStr "positive") (1 # 10) (9 # 10) [])
     ++ shown comparison_heading)
    ++ prediction_failed (OtherError "boom") :: []
  /\ is_failure_report (prediction_failed (OtherError "boom")) = true
  /\ ([] : list element) = [].
Proof.
  assert (Hrun : shown (analyze exact100 bnb_raises sample_review true true)
                 = (st_spinner "Sedang menganalisis sentimen..."
                    :: shown (ensemble_view exact100 (LStr "positive")
                                (1 # 10) (9 # 10) [])
                    ++ shown comparison_heading)
                   ++ prediction_failed (OtherError "boom") :: [])
    by reflexivity.
  assert (Hrep : is_failure_report (prediction_failed (OtherError "boom")) = true)
    by reflexivity.
  split; [exact Hrun |]. split; [exact Hrep |].
  exact (proj2 (failure_report_ends_the_run exact100 bnb_raises sample_review
                  true true)
           _ _ [] Hrun Hrep).
Defined.

Lemma bind_Forall {A B} (P : event -> Prop) (m : M A) (k : A -> M B) :
  Forall P (fst m) ->
  (forall a, snd m = inr a -> Forall P (fst (k a))) ->
  Forall P (fst (bind m k)).
Proof.
  destruct m as [tr [e | a]]; simpl; intros Hm Hk; [exact Hm |].
  specialize (Hk a eq_refl). destruct (k a) as [tr' r]. simpl in *.
  apply Forall_app. now split.
Qed.

Lemma calls_Forall (P : event -> Prop) (tr : trace) :
  Forall P tr -> forall c, In c (calls tr) -> P (Call c).
Proof.
  induction 1 as [| ev tr Hev Htr IH]; simpl; [contradiction |].
  intros c Hin. destruct ev as [c' | e]; simpl in Hin.
  - destruct Hin as [<- | Hin]; auto.
  - auto.
Qed.

Lemma prepare_result (b : Bundle) (input processed_text : str)
    (vec : FeatureVector) :
  snd (prepare b input) = inr (processed_text, vec) ->
  exists tr,
    lookup_and_preprocess (tools b) input = (tr, inr processed_text)
    /\ transform (vectorizer b) [processed_text] = inr vec.
Proof.
  unfold prepare, invoke.
  destruct (lookup_and_preprocess (tools b) input) as [tr [e | pt]];
    cbn [bind]; [discriminate |].
  destruct (transform (vectorizer b) [pt]) as [e | v] eqn:Ht;
    unfold ret; cbn [bind snd app]; [discriminate |].
  intros [= <- <-]. now exists tr.
Qed.

(** Every classifier called in a run is given the same vector: the one the
    vectorizer returned for the one-document batch holding the preprocessed
    input. *)
Theorem classifiers_get_the_transformed_input (times100 : Q -> Q) (b : Bundle)
    (input : str) (comparison details : bool) (c : call) (v : FeatureVector) :
  In c (calls (analyze times100 b input comparison details)) ->
  vector_of c = Some v ->
  exists tr processed_text,
    lookup_and_preprocess (tools b) input = (tr, inr processed_text)
    /\ transform (vectorizer b) [processed_text] = inr v.
Proof.
  set (Q := fun ev : event =>
              match ev with
              | Call c' =>
                  forall v', vector_of c' = Some v' ->
                    exists tr pt,
                      lookup_and_preprocess (tools b) input = (tr, inr pt)
                      /\ transform (vectorizer b) [pt] = inr v'
              | Show _ => True
              end).
  intros Hin Hv.
  assert (H : Forall Q (analyze times100 b input comparison details)).
  { unfold analyze. destruct (is_empty (strip input)); [repeat constructor |].
    constructor; [exact I |].
    assert (Hb : Forall Q (fst (analysis times100 b input comparison details))).
    { unfold analysis. apply bind_Forall.
      - pose proof (prepare_no_base
                      (fun ev => match ev with
                                 | Call c' => match vector_of c' with
                                              | None => true
                                              | Some _ => false
                                              end
                                 | Show _ => true
                                 end) b input
                      (fun _ => eq_refl) (fun _ => eq_refl) (fun _ => eq_refl))
          as Hp.
        rewrite forallb_forall in Hp. apply Forall_forall.
        intros [c' | e] Hev; [| exact I].
        specialize (Hp _ Hev). simpl in Hp. simpl. intros v' Hv'.
        rewrite Hv' in Hp. discriminate.
      - intros [pt vec] Hp. apply prepare_result in Hp as [tr [Hl Ht]].
        assert (Hvec : Forall (fun ev => match ev with
                                         | Call c' =>
                                             forall v', vector_of c' = Some v' ->
                                                        v' = vec
                                         | Show _ => True
                                         end)
                         (fst (pp <- predict_ensemble b vec ;;
                               (let (pred_ensemble, prob_ensemble) := pp in
                                show_ensemble times100 pred_ensemble prob_ensemble ;;;
                                (if comparison then compare_models b vec else ret tt) ;;;
                                (if details then show_preprocessing input pt
                                 else ret tt))))).
        { unfold predict_ensemble, show_ensemble, compare_models,
            show_preprocessing, invoke, index, py_max, st, ret, raise.
          repeat match goal with
            | |- Forall _ (fst (bind _ _)) => apply bind_Forall; [| intros ? _]
            | |- Forall _ (fst (match ?x with _ => _ end)) => destruct x
            | |- Forall _ (fst (let (_, _) := ?x in _)) => destruct x
            end;
            simpl; repeat constructor; simpl; intros v' [= <-]; reflexivity. }
        revert Hvec. apply Forall_impl. intros [c' | e]; [| trivial].
        intros Hc v' Hv'. rewrite (Hc v' Hv'). now exists tr, pt. }
    destruct (analysis times100 b input comparison details) as [tr [e | u]];
      simpl in *; [| exact Hb].
    apply Forall_app. split; [exact Hb | repeat constructor]. }
  exact (calls_Forall Q _ H c Hin v Hv).
Qed.

Lemma classifiers_get_the_transformed_input_witness :
  In (Predict LinearSVM sample_vector)
     (calls (analyze exact100 sample_bundle sample_review true false))
  /\ exists tr processed_text,
      lookup_and_preprocess (tools sample_bundle) sample_review
      = (tr, inr processed_text)
      /\ transform (vectorizer sample_bundle) [processed_text]
         = inr sample_vector.
Proof.
  assert (Hin : In (Predict LinearSVM sample_vector)
                   (calls (analyze exact100 sample_bundle sample_review
                                   true false)))
    by (simpl; auto 10).
  split; [exact Hin |].
  exact (classifiers_get_the_transformed_input exact100 sample_bundle
           sample_review true false _ _ Hin eq_refl).
Defined.

(** Asking for the preprocessing details changes what is rendered only: the
    same calls are made with and without them. *)
Theorem details_do_not_change_calls (times100 : Q -> Q) (b : Bundle)
    (input : str) (comparison : bool) :
  calls (analyze times100 b input comparison true)
  = calls (analyze times100 b input comparison false).
Proof.
  unfold_run.
  repeat (cbn [bind fst snd app nth_error]; split_on_first_test);
    reflexivity.
Qed.

Lemma shown_In (e : element) (tr : trace) :
  In e (shown tr) -> In (Show e) tr.
Proof.
  induction tr as [| [c | e'] tr IH]; simpl; [contradiction | auto |].
  intros [-> | H]; auto.
Qed.

Lemma calls_In (c : call) (tr : trace) :
  In (Call c) tr -> In c (calls tr).
Proof.
  induction tr as [| [c' | e] tr IH]; simpl; [contradiction | |].
  - intros [[= ->] | H]; auto.
  - intros [H | H]; [discriminate | auto].
Qed.

Lemma prepare_ends_with_transform (b : Bundle) (input processed_text : str)
    (vec : FeatureVector) (tr0 : trace) :
  prepare b input = (tr0, inr (processed_text, vec)) ->
  In (Call (Transform [processed_text])) tr0.
Proof.
  unfold prepare, invoke.
  destruct (lookup_and_preprocess (tools b) input) as [tr [e | pt]];
    cbn [bind]; [discriminate |].
  destruct (transform (vectorizer b) [pt]) as [e | v];
    unfold ret; cbn [bind app]; [discriminate |].
  intros [= <- <- <-]. apply in_or_app. right. simpl. auto.
Qed.

(** The text rendered as the result of preprocessing is the document that
    was given to the vectorizer, and it is rendered only when the details
    are asked for. *)
Theorem details_show_the_vectorized_text (times100 : Q -> Q) (b : Bundle)
    (input : str) (comparison details : bool) (t : str) :
  In (st_text_area "Hasil Preprocessing (Stemmed & Cleaned):" t)
     (shown (analyze times100 b input comparison details)) ->
  details = true
  /\ In (Transform [t]) (calls (analyze times100 b input comparison details)).
Proof.
  intros Hin. apply shown_In in Hin. unfold analyze in *.
  destruct (is_empty (strip input)).
  { destruct Hin as [H | []]. discriminate. }
  destruct Hin as [H | Hin]; [discriminate |].
  destruct (prepare b input) as [tr0 [e | [pt vec]]] eqn:Hp.
  - exfalso. unfold analysis in Hin. rewrite Hp in Hin.
    cbn [bind try_except] in Hin. apply in_app_or in Hin as [Hin | Hin].
    + apply in_split in Hin as (l1 & l2 & ->).
      pose proof (prepare_shows_nothing b input) as Hs. rewrite Hp in Hs.
      simpl in Hs. rewrite shown_app in Hs. simpl in Hs.
      destruct (shown l1); discriminate.
    + destruct Hin as [H | []]. discriminate.
  - set (P := fun ev : event =>
                match ev with
                | Show (st_text_area name v) =>
                    name = "Hasil Preprocessing (Stemmed & Cleaned):" ->
                    details = true /\ v = pt
                | _ => True
                end).
    assert (Hall : Forall P (try_except
                               (analysis times100 b input comparison details)
                               (fun e => [Show (prediction_failed e)]))).
    { assert (Hb : Forall P (fst (analysis times100 b input comparison details))).
      { unfold analysis. rewrite Hp. apply bind_Forall.
        - simpl. pose proof (prepare_shows_nothing b input) as Hs.
          rewrite Hp in Hs. simpl in Hs. apply Forall_forall.
          intros [c | e] Hev; [exact I |].
          apply in_split in Hev as (l1 & l2 & ->).
          rewrite shown_app in Hs. simpl in Hs.
          destruct (shown l1); discriminate.
        - intros [pt' vec'] [= <- <-].
          unfold predict_ensemble, show_ensemble, compare_models,
            show_preprocessing, invoke, index, py_max, st, ret, raise.
          unfold P. clear P Hin Hp.
          repeat match goal with
            | |- Forall _ (fst (bind _ _)) => apply bind_Forall; [| intros ? _]
            | |- Forall _ (fst (match ?x with _ => _ end)) => destruct x
            | |- Forall _ (fst (let (_, _) := ?x in _)) => destruct x
            end;
            simpl; repeat constructor;
            unfold sentiment_headline, sentiment_chip, confidence_info;
            repeat match goal with
              | |- context [if ?x then _ else _] => destruct x
              | |- context [let (_, _) := ?x in _] => destruct x
              end;
            try exact I; try discriminate; auto. }
      destruct (analysis times100 b input comparison details) as [tr [e | u]];
        simpl in *; [| exact Hb].
      apply Forall_app. split; [exact Hb | repeat constructor]. }
    rewrite Forall_forall in Hall. specialize (Hall _ Hin).
    destruct (Hall eq_refl) as [Hd ->]. split; [exact Hd |].
    apply calls_In. right. unfold analysis. rewrite Hp. cbn [bind].
    match goal with
    | |- In _ (try_except (let (tr', r) := ?k in _) _) => destruct k as [tr' [e | u]]
    end; simpl; rewrite ?in_app_iff; left;
      try left; exact (prepare_ends_with_transform b input _ _ _ Hp).
Qed.

Lemma details_show_the_vectorized_text_witness :
  In (st_text_area "Hasil Preprocessing (Stemmed & Cleaned):"
                   (of_string "filmnya bagus banget"))
     (shown (analyze exact100 sample_bundle sample_review false true))
  /\ In (Transform [of_string "filmnya bagus banget"])
        (calls (analyze exact100 sample_bundle sample_review false true)).
Proof.
  assert (Hin : In (st_text_area "Hasil Preprocessing (Stemmed & Cleaned):"
                                 (of_string "filmnya bagus banget"))
                   (shown (analyze exact100 sample_bundle sample_review
                                   false true)))
    by (simpl; auto 20).
  split; [exact Hin |].
  exact (proj2 (details_show_the_vectorized_text exact100 sample_bundle
                  sample_review false true _ Hin)).
Defined.
